(** * Controllers of the submission metadata API

    A shallow embedding of [metadata/controllers/submission.py]: the
    resolution of the acting agents from the request ([_get_agents]), the
    translation of a partial update document into events
    ([_update_submission]) and the three controllers that talk to the event
    store ([create_submission], [get_submission], [update_submission]).

    Python dictionaries are finite maps with string keys, exceptions are an
    explicit outcome, the in-place update of the request document is state
    passing over that document, and the calls to the logger and to the event
    store are recorded in a trace. *)

From Stdlib Require Import ZArith String Ascii.
From Stdlib.Floats Require Import SpecFloat.
From stdpp Require Import gmap strings list fin_maps sorting.

Open Scope string_scope.
Open Scope list_scope.

(** ** Deserialized JSON values *)

(** The request document is a deserialized JSON document: a tree of
    dictionaries, lists and scalars.  Being the result of deserialization, no
    object occurs at two places in it. *)
#[warnings="-register-all"]
Inductive value : Type :=
| VNone
| VBool (b : bool)
| VInt (z : Z)
| VFloat (f : spec_float)
| VStr (s : string)
| VList (l : list value)
| VDict (d : gmap string value).

Abbreviation dict := (gmap string value).

(** ** Exceptions and outcomes *)

(** The exception classes of the event store that the controllers name. *)
Inductive StoreKind : Type :=
| InvalidEvent
| SaveError
| NoSuchSubmission
| Unrecognized.

(** An exception raised by the event store: the handler clause it is an
    instance of, [str(type(e))] and [str(e)].  The three named classes are
    unrelated to each other, and everything the store raises derives from
    [Exception]. *)
Record StoreExc : Type := mkStoreExc {
  exc_kind : StoreKind;
  exc_type : string;
  exc_str : string
}.

(** Exceptions that occur in this module: the interpreter's own (the text of
    a [TypeError] is not modelled), the store's, and the HTTP exceptions of
    werkzeug with their description. *)
Inductive Exception : Type :=
| KeyError (key : string)
| TypeError
| AttributeError (attr : string)
| FromStore (e : StoreExc)
| NotFound (description : string)
| BadRequest (description : string)
| InternalServerError (description : string).

Inductive outcome (A : Type) : Type :=
| Return (a : A)
| Raise (e : Exception).
Arguments Return {A} a.
Arguments Raise {A} e.

Definition obind {A B : Type} (o : outcome A) (f : A -> outcome B) : outcome B :=
  match o with
  | Return a => f a
  | Raise e => Raise e
  end.

(** ** The operators of Python that the module applies to document values *)

(** [sub in s] on two strings. *)
Fixpoint is_substring (sub s : string) : bool :=
  String.prefix sub s ||
  match s with
  | EmptyString => false
  | String _ s' => is_substring sub s'
  end.

(** [x == key] for a string [key]: only an equal string compares equal. *)
Definition eq_str (key : string) (x : value) : bool :=
  match x with
  | VStr s => bool_decide (s = key)
  | _ => false
  end.

(** [key in x] for a string [key]. *)
Definition py_in (key : string) (x : value) : outcome bool :=
  match x with
  | VDict d => Return (bool_decide (is_Some (d !! key)))
  | VList l => Return (existsb (eq_str key) l)
  | VStr s => Return (is_substring key s)
  | VNone | VBool _ | VInt _ | VFloat _ => Raise TypeError
  end.

(** [x[key]] for a string [key]. *)
Definition py_getitem (x : value) (key : string) : outcome value :=
  match x with
  | VDict d =>
      match d !! key with
      | Some v => Return v
      | None => Raise (KeyError key)
      end
  | _ => Raise TypeError
  end.

(** [x.get(key)]: only dictionaries have the method. *)
Definition py_get (x : value) (key : string) : outcome value :=
  match x with
  | VDict d => Return (default VNone (d !! key))
  | _ => Raise (AttributeError "get")
  end.

(** Truth value of [x]. *)
Definition py_bool (x : value) : bool :=
  match x with
  | VNone => false
  | VBool b => b
  | VInt z => negb (z =? 0)%Z
  | VFloat f => match f with S754_zero _ => false | _ => true end
  | VStr s => negb (String.eqb s "")
  | VList l => match l with [] => false | _ => true end
  | VDict d => negb (bool_decide (d = ∅))
  end.

(** The elements [for ... in x] runs through: the items of a list, the keys
    of a dictionary, the characters of a string. *)
Definition py_iter (x : value) : outcome (list value) :=
  match x with
  | VList l => Return l
  | VDict d => Return (VStr <$> (map_to_list d).*1)
  | VStr s => Return ((fun c => VStr (String c EmptyString)) <$> list_ascii_of_string s)
  | VNone | VBool _ | VInt _ | VFloat _ => Raise TypeError
  end.

(** [**x] in a call: [x] has to be a mapping. *)
Definition py_kwargs (x : value) : outcome dict :=
  match x with
  | VDict d => Return d
  | _ => Raise TypeError
  end.

(** ** Agents and events *)

(** Modelled from the spec: the agent classes of [events.domain.agent] are not
    part of this module.  An agent has a stable identifier, an optional
    contact address and optional endorsements.  [User] records the arguments
    of the constructor call: the identifier, the e-mail address, the third
    positional argument when the call passes one, and the endorsements, which
    no call of this module passes. *)
Inductive Agent : Type :=
| User (native_id email : value) (third : option value)
       (endorsements : list (string * string))
| Client (native_id : value).

(** [dict(creator=creator, client=client, proxy=proxy)] *)
Record Agents : Type := mkAgents {
  creator : Agent;
  client : Agent;
  proxy : option Agent
}.

(** [ev.Author] is called with the items of [au] as keyword arguments: an
    author holds the keyword arguments it was built from. *)
Inductive Author : Type :=
| mkAuthor (kwargs : dict).

(** Modelled from the spec: the event classes of [events] are not part of
    this module.  An event carries the agents and the keyword arguments of
    its kind, with the values they have when the event is built. *)
Inductive Event : Type :=
| CreateSubmission (agents : Agents)
| AssertAuthorship (agents : Agents) (submitter_is_author : value)
| SelectLicense (agents : Agents) (license_name license_uri : value)
| AcceptPolicy (agents : Agents)
| SetPrimaryClassification (agents : Agents) (category : value)
| AddSecondaryClassification (agents : Agents) (category : value)
| UpdateMetadata (agents : Agents) (metadata : list (string * value))
| UpdateAuthors (agents : Agents) (authors : list Author).

Definition event_agents (e : Event) : Agents :=
  match e with
  | CreateSubmission a | AssertAuthorship a _ | SelectLicense a _ _
  | AcceptPolicy a | SetPrimaryClassification a _
  | AddSecondaryClassification a _ | UpdateMetadata a _
  | UpdateAuthors a _ => a
  end.

Definition is_UpdateMetadata (e : Event) : bool :=
  match e with UpdateMetadata _ _ => true | _ => false end.

Definition is_UpdateAuthors (e : Event) : bool :=
  match e with UpdateAuthors _ _ => true | _ => false end.

(** ** Computations over the request document *)

(** [_update_submission] writes into the document it is given.  A
    computation takes the current document and returns its outcome together
    with the document as it left it. *)
Definition M (A : Type) : Type := dict -> outcome A * dict.

#[global] Instance M_ret : MRet M := fun A a data => (Return a, data).

#[global] Instance M_bind : MBind M := fun A B f m data =>
  match m data with
  | (Return a, data') => f a data'
  | (Raise e, data') => (Raise e, data')
  end.

Definition read : M dict := fun data => (Return data, data).

Definition lift {A : Type} (o : outcome A) : M A := fun data => (o, data).

Definition raise {A : Type} (e : Exception) : M A := fun data => (Raise e, data).

(** A [for] loop that threads an accumulator. *)
Fixpoint for_each {A B : Type} (body : B -> A -> M B) (acc : B) (l : list A) : M B :=
  match l with
  | [] => mret acc
  | x :: l' => acc' ← body acc x; for_each body acc' l'
  end.

(** ** [_update_submission] *)

(** The effect of [au['order'] = i] on the document, where [au] is the
    [i]-th item of [data['metadata']['authors']] and [au'] its new content. *)
Definition write_author (i : nat) (au' : dict) : M unit := fun data =>
  match data !! "metadata" with
  | Some (VDict md) =>
      match md !! "authors" with
      | Some (VList aus) =>
          (Return (),
           <["metadata" := VDict (<["authors" := VList (<[i := VDict au']> aus)]> md)]> data)
      | _ => (Return (), data)
      end
  | _ => (Return (), data)
  end.

(** [au['order'] = i]; the name [au] then denotes the updated entry. *)
Definition set_order (i : nat) (au : value) : M value :=
  match au with
  | VDict d =>
      let d' := <["order" := VInt (Z.of_nat i)]> d in
      _ ← write_author i d'; mret (VDict d')
  | _ => raise TypeError
  end.

(** The loop [for i, au in enumerate(data['metadata']['authors'])], from
    index [i] on. *)
Fixpoint authors_loop (i : nat) (items : list value) (authors : list Author)
  : M (list Author) :=
  match items with
  | [] => mret authors
  | au :: items' =>
      has_order ← lift (py_in "order" au);
      au ← (if negb has_order then set_order i au else mret au);
      kwargs ← lift (py_kwargs au);
      authors_loop (S i) items' (authors ++ [mkAuthor kwargs])
  end.

(** The loop [for key in ev.UpdateMetadata.FIELDS] over the value [md] of
    [data['metadata']]. *)
Definition metadata_step (md : value) (metadata : list (string * value)) (key : string)
  : M (list (string * value)) :=
  present ← lift (py_in key md);
  if negb present then mret metadata
  else v ← lift (py_getitem md key); mret (metadata ++ [(key, v)]).

Definition secondary_step (agents : Agents) (new_events : list Event)
    (classification_datum : value) : M (list Event) :=
  category ← lift (py_getitem classification_datum "category");
  mret (new_events ++ [AddSecondaryClassification agents category]).

(** [FIELDS] stands for [ev.UpdateMetadata.FIELDS], a constant of the events
    package.  The document is read once: nothing writes to it before the loop
    over the authors, the last statement that touches it. *)
Definition _update_submission (FIELDS : list string) (creator client : Agent)
    (proxy : option Agent) : M (list Event) :=
  let agents := mkAgents creator client proxy in
  data ← read;
  let new_events := [] in
  new_events ←
    match data !! "submitter_is_author" with
    | Some v => mret (new_events ++ [AssertAuthorship agents v])
    | None => mret new_events
    end;
  new_events ←
    match data !! "license" with
    | Some license =>
        license_name ← lift (py_get license "name");
        license_uri ← lift (py_getitem license "uri");
        mret (new_events ++ [SelectLicense agents license_name license_uri])
    | None => mret new_events
    end;
  new_events ←
    match data !! "submitter_accepts_policy" with
    | Some v =>
        if py_bool v then mret (new_events ++ [AcceptPolicy agents])
        else mret new_events
    | None => mret new_events
    end;
  new_events ←
    match data !! "primary_classification" with
    | Some primary =>
        category ← lift (py_getitem primary "category");
        mret (new_events ++ [SetPrimaryClassification agents category])
    | None => mret new_events
    end;
  secondary ← lift (py_iter (default (VList []) (data !! "secondary_classification")));
  new_events ← for_each (secondary_step agents) new_events secondary;
  match data !! "metadata" with
  | Some md =>
      metadata ← for_each (metadata_step md) [] FIELDS;
      let new_events := new_events ++ [UpdateMetadata agents metadata] in
      has_authors ← lift (py_in "authors" md);
      if (has_authors : bool) then
        aus ← lift (py_getitem md "authors");
        items ← lift (py_iter aus);
        authors ← authors_loop 0 items [];
        mret (new_events ++ [UpdateAuthors agents authors])
      else mret new_events
  | None => mret new_events
  end.

(** ** [_get_agents] *)

#[global] Instance outcome_ret : MRet outcome := fun A a => Return a.

#[global] Instance outcome_bind : MBind outcome := fun A B f o => obind o f.

(** Request headers map a header name to its text. *)
Definition _get_agents (headers : gmap string string) (user_data client_data : dict)
  : outcome (Agent * Agent * option Agent) :=
  native_id ← py_getitem (VDict user_data) "user_id";
  email ← py_getitem (VDict user_data) "email";
  let user := User native_id email None [] in
  client_id ← py_getitem (VDict client_data) "client_id";
  let client := Client client_id in
  let on_behalf_of := headers !! "X-On-Behalf-Of" in
  match on_behalf_of with
  | Some subject =>
      let proxy := user in
      let user := User (VStr subject) (VStr "") (Some (VStr "")) [] in
      Return (user, client, Some proxy)
  | None => Return (user, client, None)
  end.

(** ** The event store, the logger and the controllers *)

(** Modelled from the spec: [Submission] is the read model that the event
    store builds; the controllers read its identifier and its [to_dict()]. *)
Record Submission : Type := mkSubmission {
  submission_id : value;
  to_dict : dict
}.

Inductive StoreResult : Type :=
| Stored (submission : Submission) (events : list Event)
| Failed (e : StoreExc).

(** A keyword argument of [url_for]. *)
Inductive UrlArg : Type :=
| UrlValue (v : value)
| UrlAgent (a : Agent).

(** What the controllers import: the field list of [ev.UpdateMetadata], the
    two entry points of the event store, whose behaviour is a function of the
    arguments of the call, and flask's [url_for], which builds the location
    from the name of a route and keyword arguments. *)
Record Env : Type := mkEnv {
  FIELDS : list string;
  save : list Event -> option string -> StoreResult;
  load : string -> StoreResult;
  url_for : string -> list (string * UrlArg) -> string
}.

(** Records handed to the logger: a debug message, the debug line that
    formats the three agents, and
    [logger.error('Unhandled exception: (%s) %s', str(type(e)), str(e))],
    kept as the exception [e] whose type and text it shows. *)
Inductive LogRecord : Type :=
| Debug (msg : string)
| DebugAgents (user client : Agent) (proxy : option Agent)
| ErrorUnhandled (e : Exception).

(** What a controller does to the outside, in order. *)
Inductive Effect : Type :=
| Logged (r : LogRecord)
| Saved (events : list Event) (submission_id : option string)
| Loaded (submission_id : string).

(** A controller computation extends the trace of effects. *)
Definition C (A : Type) : Type := list Effect -> outcome A * list Effect.

#[global] Instance C_ret : MRet C := fun A a trace => (Return a, trace).

#[global] Instance C_bind : MBind C := fun A B f m trace =>
  match m trace with
  | (Return a, trace') => f a trace'
  | (Raise e, trace') => (Raise e, trace')
  end.

Definition emit (x : Effect) : C unit := fun trace => (Return (), trace ++ [x]).

Definition logger_debug (msg : string) : C unit := emit (Logged (Debug msg)).

(** [raise e] and the lifting of a computation that has no effect. *)
Definition throw {A : Type} (e : Exception) : C A := fun trace => (Raise e, trace).

Definition pure_outcome {A : Type} (o : outcome A) : C A := fun trace => (o, trace).

(** [try: body  except Exception as e: handler e], where the handler
    dispatches on [e] itself. *)
Definition try_except {A : Type} (body : C A) (handler : Exception -> C A) : C A :=
  fun trace =>
    match body trace with
    | (Return a, trace') => (Return a, trace')
    | (Raise e, trace') => handler e trace'
    end.

(** [ev.save], called with the events as positional arguments and the
    keyword argument [submission_id], and [ev.load(submission_id)]. *)
Definition ev_save (env : Env) (events : list Event) (sid : option string)
  : C (Submission * list Event) :=
  _ ← emit (Saved events sid);
  match save env events sid with
  | Stored submission events' => mret (submission, events')
  | Failed e => throw (FromStore e)
  end.

Definition ev_load (env : Env) (sid : string) : C (Submission * list Event) :=
  _ ← emit (Loaded sid);
  match load env sid with
  | Stored submission events' => mret (submission, events')
  | Failed e => throw (FromStore e)
  end.

(** The last clause of each handler chain. *)
Definition unhandled {A : Type} (e : Exception) : C A :=
  _ ← emit (Logged (ErrorUnhandled e));
  throw (InternalServerError "Encountered unhandled exception").

Definition HTTP_200_OK : Z := 200.
Definition HTTP_201_CREATED : Z := 201.

Definition Response : Type := dict * Z * gmap string string.

(** The [except] clauses of [create_submission], tried in order; each of them
    raises. *)
Definition create_submission_except {A : Type} (e : Exception) : C A :=
  match e with
  | FromStore (mkStoreExc InvalidEvent _ text) =>
      throw (InternalServerError text)
  | FromStore (mkStoreExc SaveError _ text) =>
      throw (InternalServerError ("Problem interacting with database: " +:+ text))
  | _ => unhandled e
  end.

(** The body of [create_submission]; the decorator [util.validate_request],
    which belongs to another module, runs before it.  The controller does not
    read the document again after the translation, so only the outcome of
    the translation is kept. *)
Definition create_submission (env : Env) (data : dict) (headers : gmap string string)
    (user_data client_data : dict) (token : string) : C Response :=
  _ ← logger_debug "Received request to create submission";
  '(user, client, proxy) ← pure_outcome (_get_agents headers user_data client_data);
  _ ← emit (Logged (DebugAgents user client proxy));
  '(submission, events) ←
    try_except
      (let first := CreateSubmission (mkAgents user client proxy) in
       new_events ← pure_outcome (fst (_update_submission (FIELDS env) user client proxy data));
       ev_save env (first :: new_events) None)
      create_submission_except;
  let response_headers : gmap string string :=
    {[ "Location" :=
         url_for env "submission.get_submission"
           [("submission_id", UrlValue (submission_id submission))] ]} in
  mret (to_dict submission, HTTP_201_CREATED, response_headers).

(** The [except] clauses of [get_submission]. *)
Definition get_submission_except {A : Type} (e : Exception) : C A :=
  match e with
  | FromStore (mkStoreExc NoSuchSubmission _ _) =>
      throw (NotFound "Submission not found")
  | _ => unhandled e
  end.

Definition get_submission (env : Env) (sid : string) (user client token : option string)
  : C Response :=
  '(submission, events) ← try_except (ev_load env sid) get_submission_except;
  mret (to_dict submission, HTTP_200_OK, ∅).

(** The [except] clauses of [update_submission], tried in order. *)
Definition update_submission_except {A : Type} (sid : string) (e : Exception) : C A :=
  match e with
  | FromStore (mkStoreExc NoSuchSubmission _ _) =>
      throw (NotFound ("No submission found with id " +:+ sid))
  | FromStore (mkStoreExc InvalidEvent _ text) =>
      throw (InternalServerError text)
  | FromStore (mkStoreExc SaveError _ _) =>
      throw (InternalServerError "Problem interacting with database")
  | _ => unhandled e
  end.

(** The body of [update_submission], under the same decorator. *)
Definition update_submission (env : Env) (data : dict) (headers : gmap string string)
    (user_data client_data : dict) (token : string) (sid : string) : C Response :=
  '(user, client, proxy) ← pure_outcome (_get_agents headers user_data client_data);
  '(submission, events) ←
    try_except
      (new_events ← pure_outcome (fst (_update_submission (FIELDS env) user client proxy data));
       ev_save env new_events (Some sid))
      (update_submission_except sid);
  let response_headers : gmap string string :=
    {[ "Location" :=
         url_for env "submit.get_submission"
           [("creator", UrlAgent user);
            ("submission_id", UrlValue (submission_id submission))] ]} in
  mret (to_dict submission, HTTP_200_OK, response_headers).

(** The event lists that a trace hands to the store. *)
Definition saved_events (trace : list Effect) : list (list Event) :=
  omap (fun x => match x with Saved events _ => Some events | _ => None end) trace.

(** ** What the translation is expected to do to the author entries *)

(** An author entry without [order] gets its position; any other value is
    left as it is. *)
Definition default_order (i : nat) (au : value) : value :=
  match au with
  | VDict d =>
      match d !! "order" with
      | Some _ => au
      | None => VDict (<["order" := VInt (Z.of_nat i)]> d)
      end
  | _ => au
  end.

Definition dict_of (v : value) : dict :=
  match v with VDict d => d | _ => ∅ end.

Definition is_dict (v : value) : bool :=
  match v with VDict _ => true | _ => false end.

Definition is_list (v : value) : bool :=
  match v with VList _ => true | _ => false end.

(** The document [data] with [aus'] as the list under
    [data['metadata']['authors']]. *)
Definition set_authors (aus' : list value) (md data : dict) : dict :=
  <["metadata" := VDict (<["authors" := VList aus']> md)]> data.

(** The document in which the first [k] author entries have their default
    order. *)
Definition default_orders_upto (k : nat) (data : dict) : dict :=
  match data !! "metadata" with
  | Some (VDict md) =>
      match md !! "authors" with
      | Some (VList aus) =>
          set_authors (imap default_order (take k aus) ++ drop k aus) md data
      | _ => data
      end
  | _ => data
  end.

(** The document in which every author entry has its default order. *)
Definition default_orders (data : dict) : dict :=
  match data !! "metadata" with
  | Some (VDict md) =>
      match md !! "authors" with
      | Some (VList aus) => set_authors (imap default_order aus) md data
      | _ => data
      end
  | _ => data
  end.

(** ** The rules of translation, as the specification words them *)

Definition has_key (key : string) (v : value) : bool :=
  match v with
  | VDict d => bool_decide (is_Some (d !! key))
  | _ => false
  end.

Definition list_of (v : value) : list value :=
  match v with VList l => l | _ => [] end.

(** The entry of an object under [key], [None] when there is none. *)
Definition item (v : value) (key : string) : value :=
  default VNone (dict_of v !! key).

(** Modelled from the spec: the request schema that [util.validate_request]
    checks is not part of this module.  The shape it gives a document, as
    far as the translation looks at it: [license] is an object with [uri],
    [primary_classification] an object with [category],
    [secondary_classification] a sequence of objects with [category],
    [metadata] an object and [metadata.authors] a sequence of objects. *)
Definition conforms (data : dict) : bool :=
  match data !! "license" with
  | Some license => has_key "uri" license
  | None => true
  end
  && match data !! "primary_classification" with
     | Some primary => has_key "category" primary
     | None => true
     end
  && match data !! "secondary_classification" with
     | Some (VList l) => forallb (has_key "category") l
     | Some _ => false
     | None => true
     end
  && match data !! "metadata" with
     | Some (VDict md) =>
         match md !! "authors" with
         | Some (VList aus) => forallb is_dict aus
         | Some _ => false
         | None => true
         end
     | Some _ => false
     | None => true
     end.

(** The six rules of compilation, in their fixed order: the events a
    conforming document compiles to. *)
Definition compile_rules (fields : list string) (a : Agents) (data : dict) : list Event :=
  match data !! "submitter_is_author" with
  | Some v => [AssertAuthorship a v]
  | None => []
  end
  ++ match data !! "license" with
     | Some license => [SelectLicense a (item license "name") (item license "uri")]
     | None => []
     end
  ++ match data !! "submitter_accepts_policy" with
     | Some v => if py_bool v then [AcceptPolicy a] else []
     | None => []
     end
  ++ match data !! "primary_classification" with
     | Some primary => [SetPrimaryClassification a (item primary "category")]
     | None => []
     end
  ++ ((fun c => AddSecondaryClassification a (item c "category"))
        <$> list_of (default (VList []) (data !! "secondary_classification")))
  ++ match data !! "metadata" with
     | Some md =>
         UpdateMetadata a (omap (fun key => pair key <$> dict_of md !! key) fields)
         :: match dict_of md !! "authors" with
            | Some aus =>
                [UpdateAuthors a
                   (imap (fun i au => mkAuthor (dict_of (default_order i au))) (list_of aus))]
            | None => []
            end
     | None => []
     end.

(** ** Specifications of computations over the document *)

(** [keeps m d Q]: run on [d], the computation [m] leaves [d] as it is, and a
    value it returns satisfies [Q]. *)
Definition keeps {A : Type} (m : M A) (d : dict) (Q : A -> Prop) : Prop :=
  snd (m d) = d /\ forall a, fst (m d) = Return a -> Q a.

(** [ends m d R Q]: run on [d], the computation [m] leaves a document that
    satisfies [R], and a value it returns satisfies [Q] together with that
    document. *)
Definition ends {A : Type} (m : M A) (d : dict) (R : dict -> Prop)
    (Q : A -> dict -> Prop) : Prop :=
  R (snd (m d)) /\ forall a, fst (m d) = Return a -> Q a (snd (m d)).

(** Events that carry the agents [a]. *)
Definition carry (a : Agents) (events : list Event) : Prop :=
  Forall (fun e => event_agents e = a) events.

(** ** The error taxonomy of the specification *)

(** Modelled from the spec: a validation error is what reaches the caller as
    a client fault, that is a [BadRequest], or the rejection of the events by
    the store. *)
Definition is_validation_error (e : Exception) : bool :=
  match e with
  | BadRequest _ => true
  | FromStore (mkStoreExc InvalidEvent _ _) => true
  | _ => false
  end.

(** ** Sample requests *)

Definition ex_user_data : dict :=
  {[ "user_id" := VInt 1234; "email" := VStr "foo@bar.baz" ]}.

Definition ex_client_data : dict := {[ "client_id" := VInt 5678 ]}.

Definition ex_user : Agent := User (VInt 1234) (VStr "foo@bar.baz") None [].

Definition ex_client : Agent := Client (VInt 5678).

Definition ex_fields : list string :=
  ["title"; "abstract"; "doi"; "msc_class"; "acm_class"; "report_num"; "journal_ref"].

Definition ex_submission : Submission := mkSubmission (VInt 1) ∅.

(** A store that answers every call with [r]. *)
Definition ex_env (r : StoreResult) : Env :=
  mkEnv ex_fields (fun _ _ => r) (fun _ => r) (fun _ _ => "/foo/").

Definition ex_primary : dict :=
  {[ "primary_classification" := VDict {[ "category" := VStr "astro-ph" ]} ]}.

Definition ex_jane : dict :=
  {[ "forename" := VStr "Jane"; "surname" := VStr "Doe"; "email" := VStr "jane@doe.com" ]}.

Definition ex_metadata : dict :=
  {[ "title" := VStr "foo title"; "flavour" := VStr "strange";
     "authors" := VList [VDict ex_jane] ]}.

Definition ex_update : dict := {[ "metadata" := VDict ex_metadata ]}.

Definition ex_license : dict := {[ "license" := VDict {[ "name" := VStr "CC BY 4.0" ]} ]}.

Definition ex_delegation : gmap string string := {[ "X-On-Behalf-Of" := "8675309" ]}.

(** The [order] of the first author entry of a document. *)
Definition first_author_order (data : dict) : option value :=
  md ← data !! "metadata";
  aus ← dict_of md !! "authors";
  au ← list_of aus !! 0;
  dict_of au !! "order".

(** ** Further observations on events, exceptions and documents *)


Definition is_AddSecondaryClassification (e : Event) : bool :=
  match e with AddSecondaryClassification _ _ => true | _ => false end.

(** The place of the kind of an event in the order in which
    [_update_submission] appends, [CreateSubmission] before all. *)
Definition event_rank (e : Event) : nat :=
  match e with
  | CreateSubmission _ => 0
  | AssertAuthorship _ _ => 1
  | SelectLicense _ _ _ => 2
  | AcceptPolicy _ => 3
  | SetPrimaryClassification _ _ => 4
  | AddSecondaryClassification _ _ => 5
  | UpdateMetadata _ _ => 6
  | UpdateAuthors _ _ => 7
  end.

(** [raises_only m P]: whatever the document, an exception that [m] raises
    satisfies [P]. *)
Definition raises_only {A : Type} (m : M A) (P : Exception -> Prop) : Prop :=
  forall d e, fst (m d) = Raise e -> P e.

(** The exceptions that subscripting, iterating and calling raise in
    [_update_submission]. *)
Definition translation_error (e : Exception) : Prop :=
  e = KeyError "uri" \/ e = KeyError "category" \/ e = TypeError
  \/ e = AttributeError "get".

(** Every author entry that is a dictionary has [order]. *)
Definition all_ordered (data : dict) : bool :=
  match data !! "metadata" with
  | Some (VDict md) =>
      match md !! "authors" with
      | Some (VList aus) => forallb (fun au => negb (is_dict au) || has_key "order" au) aus
      | _ => true
      end
  | _ => true
  end.

(** The exceptions that leave a controller are those of werkzeug. *)
Definition is_http_error (e : Exception) : bool :=
  match e with
  | NotFound _ | BadRequest _ | InternalServerError _ => true
  | _ => false
  end.

Definition ex_ordered : dict :=
  {[ "metadata" := VDict {[ "authors" := VList [VDict (<["order" := VInt 3]> ex_jane)] ]} ]}.

Definition ex_other : dict := {[ "flavour" := VStr "strange" ]}.

Definition ex_classified : dict :=
  {[ "submitter_is_author" := VBool false;
     "submitter_accepts_policy" := VBool false;
     "license" := VDict {[ "uri" := VStr "http://creativecommons.org/licenses/by/4.0/" ]};
     "primary_classification" := VDict {[ "category" := VStr "astro-ph.GA" ]};
     "secondary_classification" :=
       VList [VDict {[ "category" := VStr "astro-ph.CO" ]};
              VDict {[ "category" := VStr "hep-th" ]}] ]}.

Definition ex_no_category : dict :=
  {[ "submitter_is_author" := VBool true; "primary_classification" := VDict ∅ ]}.

(** * Properties *)

(** ** Computations over the document *)

Lemma bind_run {A B : Type} (m : M A) (f : A -> M B) (d : dict) :
  (m ≫= f) d =
  match m d with
  | (Return a, d') => f a d'
  | (Raise e, d') => (Raise e, d')
  end.
Proof. reflexivity. Qed.

Lemma bind_lift {A B : Type} (o : outcome A) (f : A -> M B) (d : dict) :
  (lift o ≫= f) d =
  match o with
  | Return a => f a d
  | Raise e => (Raise e, d)
  end.
Proof. rewrite bind_run. unfold lift. by destruct o. Qed.

Lemma bind_ret {A B : Type} (a : A) (f : A -> M B) (d : dict) :
  (mret a ≫= f) d = f a d.
Proof. reflexivity. Qed.

Lemma set_authors_id (aus : list value) (md data : dict) :
  data !! "metadata" = Some (VDict md) ->
  md !! "authors" = Some (VList aus) ->
  set_authors aus md data = data.
Proof.
  intros Hmd Haus. unfold set_authors.
  rewrite (insert_id md "authors" (VList aus) Haus).
  by apply insert_id.
Qed.

Lemma set_authors_twice (aus1 aus2 : list value) (md data : dict) :
  set_authors aus2 (<["authors" := VList aus1]> md) (set_authors aus1 md data)
  = set_authors aus2 md data.
Proof. unfold set_authors. by rewrite !insert_insert_eq. Qed.

Lemma drop_cons_inv {A : Type} (l : list A) (i : nat) (x : A) (l' : list A) :
  drop i l = x :: l' ->
  l !! i = Some x /\ drop (S i) l = l' /\ take (S i) l = take i l ++ [x].
Proof.
  intros Hd.
  assert (Hx : l !! i = Some x).
  { replace i with (i + 0) by lia. rewrite <- lookup_drop, Hd. done. }
  split; [done|]. split.
  - rewrite (drop_S l x i Hx) in Hd. by injection Hd.
  - by apply take_S_r.
Qed.

(** ** The loop over the authors *)

Lemma authors_loop_spec (items : list value) :
  forall (i : nat) (acc : list Author) (data md : dict) (aus : list value),
    data !! "metadata" = Some (VDict md) ->
    md !! "authors" = Some (VList aus) ->
    drop i aus = items ->
    exists k : nat,
      k <= length items /\
      snd (authors_loop i items acc data)
      = set_authors (take i aus
                     ++ imap (fun j => default_order (i + j)) (take k items)
                     ++ drop k items) md data /\
      (forall authors,
         fst (authors_loop i items acc data) = Return authors ->
         k = length items /\
         forallb is_dict items = true /\
         authors = acc ++ imap (fun j v => mkAuthor (dict_of (default_order (i + j) v))) items).
Proof.
  induction items as [|au items IH]; intros i acc data md aus Hmd Haus Hdrop.
  - exists 0. split; [done|]. split.
    + cbn. rewrite app_nil_r.
      assert (Hall : take i aus = aus).
      { rewrite <- (take_drop i aus) at 2. by rewrite Hdrop, app_nil_r. }
      rewrite Hall. symmetry. by apply set_authors_id.
    + cbn. intros authors [= <-]. by rewrite app_nil_r.
  - destruct (drop_cons_inv _ _ _ _ Hdrop) as (Hi & Hdrop' & Htake).
    assert (Hstop : set_authors (take i aus ++ imap (fun j => default_order (i + j)) (take 0 (au :: items))
                                 ++ drop 0 (au :: items)) md data = data).
    { cbn. rewrite <- Hdrop, take_drop. by apply set_authors_id. }
    destruct au as [| b | z | f | s | l | d].
    1-6: exists 0; split; [cbn; lia|]; split;
         [rewrite Hstop; cbn; rewrite ?bind_lift; cbn;
          repeat (match goal with |- context [if ?b then _ else _] => destruct b end; cbn);
          reflexivity
         | cbn; rewrite ?bind_lift; cbn;
           repeat (match goal with |- context [if ?b then _ else _] => destruct b end; cbn);
           intros ?; discriminate ].
    destruct (d !! "order") as [o|] eqn:Ho.
    + assert (Hstep : authors_loop i (VDict d :: items) acc data
                      = authors_loop (S i) items (acc ++ [mkAuthor d]) data).
      { cbn [authors_loop]. rewrite bind_lift. cbn [py_in].
        rewrite bool_decide_true by eauto. cbn [negb]. by rewrite bind_ret, bind_lift. }
      rewrite Hstep.
      destruct (IH (S i) (acc ++ [mkAuthor d]) data md aus Hmd Haus Hdrop')
        as (k & Hk & Hsnd & Hfst).
      exists (S k). split; [cbn; lia|]. split.
      * rewrite Hsnd. f_equal. rewrite Htake. cbn [take drop imap]. cbn [default_order].
        rewrite Ho. rewrite ?Nat.add_0_r. rewrite <- !app_assoc. cbn [app].
        do 3 f_equal. apply imap_ext. intros j x _. cbn. f_equal. lia.
      * intros authors Hret. destruct (Hfst authors Hret) as (-> & Hall & ->).
        split; [done|]. split; [by cbn|].
        rewrite <- app_assoc. cbn [app imap]. cbn [default_order]. rewrite Ho.
        cbn [dict_of]. do 2 f_equal. apply imap_ext. intros j x _. cbn. do 3 f_equal. lia.
    + set (d' := <["order" := VInt (Z.of_nat i)]> d).
      set (aus1 := <[i := VDict d']> aus).
      assert (Hstep : authors_loop i (VDict d :: items) acc data
                      = authors_loop (S i) items (acc ++ [mkAuthor d'])
                          (set_authors aus1 md data)).
      { cbn [authors_loop]. rewrite bind_lift. cbn [py_in].
        rewrite bool_decide_false by (intros [? ?]; congruence). cbn [negb set_order].
        rewrite !bind_run. unfold write_author. rewrite Hmd, Haus. cbn [mret M_ret].
        by rewrite bind_lift. }
      rewrite Hstep.
      assert (Hmd1 : set_authors aus1 md data !! "metadata"
                     = Some (VDict (<["authors" := VList aus1]> md))).
      { unfold set_authors. by rewrite lookup_insert_eq. }
      assert (Haus1 : (<["authors" := VList aus1]> md) !! "authors" = Some (VList aus1)).
      { by rewrite lookup_insert_eq. }
      assert (Hlt : i < length aus) by (by eapply lookup_lt_Some).
      assert (Hdrop1 : drop (S i) aus1 = items).
      { unfold aus1. rewrite drop_insert_lt by lia. done. }
      destruct (IH (S i) (acc ++ [mkAuthor d']) _ _ aus1 Hmd1 Haus1 Hdrop1)
        as (k & Hk & Hsnd & Hfst).
      exists (S k). split; [cbn; lia|]. split.
      * rewrite Hsnd, set_authors_twice. f_equal.
        assert (Htake1 : take (S i) aus1 = take i aus ++ [VDict d']).
        { unfold aus1. rewrite (take_S_r _ _ (VDict d')).
          - rewrite take_insert_ge by lia. done.
          - by rewrite list_lookup_insert_eq. }
        rewrite Htake1. cbn [take drop imap]. cbn [default_order]. rewrite Ho.
        rewrite ?Nat.add_0_r. fold d'. rewrite <- !app_assoc. cbn [app].
        do 3 f_equal. apply imap_ext. intros j x _. cbn. f_equal. lia.
      * intros authors Hret. destruct (Hfst authors Hret) as (-> & Hall & ->).
        split; [done|]. split; [by cbn|].
        rewrite <- app_assoc. cbn [app imap]. cbn [default_order]. rewrite Ho.
        rewrite ?Nat.add_0_r. fold d'.
        cbn [dict_of]. do 2 f_equal. apply imap_ext. intros j x _. cbn. do 3 f_equal. lia.
Qed.

(** A loop over items none of which is a dictionary stops at its first item
    and writes nothing. *)
Lemma authors_loop_no_dict (items : list value) (i : nat) (acc : list Author) (data : dict) :
  forallb (fun v => negb (is_dict v)) items = true ->
  authors_loop i items acc data
  = match items with
    | [] => (Return acc, data)
    | _ :: _ => (Raise TypeError, data)
    end.
Proof.
  destruct items as [|au items]; [done|].
  cbn [forallb]. intros [Hau _]%andb_prop.
  cbn [authors_loop]. rewrite bind_lift.
  destruct au as [| b | z | f | s | l | d]; try done; cbn [py_in].
  - destruct (is_substring "order" s); cbn [negb].
    + by rewrite bind_ret, bind_lift.
    + by rewrite bind_run.
  - destruct (existsb (eq_str "order") l); cbn [negb].
    + by rewrite bind_ret, bind_lift.
    + by rewrite bind_run.
Qed.

(** On author entries that are all dictionaries, the loop returns. *)
Lemma authors_loop_returns (items : list value) :
  forallb is_dict items = true ->
  forall (i : nat) (acc : list Author) (data : dict),
    exists authors, fst (authors_loop i items acc data) = Return authors.
Proof.
  induction items as [|au items IH]; intros Hall i acc data.
  - by exists acc.
  - cbn [forallb] in Hall. apply andb_prop in Hall as [Hau Hall].
    destruct au as [| | | | | |d]; try done.
    cbn [authors_loop]. rewrite bind_lift. cbn [py_in].
    destruct (bool_decide (is_Some (d !! "order"))); cbn [negb].
    + rewrite bind_ret, bind_lift. cbn [py_kwargs]. by apply IH.
    + cbn [set_order]. rewrite !bind_run.
      assert (Hw : fst (write_author i (<["order" := VInt (Z.of_nat i)]> d) data) = Return ()).
      { unfold write_author. by repeat case_match. }
      destruct (write_author _ _ data) as [[[]|e] d1]; [|done].
      cbn [mret M_ret]. rewrite bind_lift. cbn [py_kwargs]. by apply IH.
Qed.

(** ** Statements that only read the document *)

Lemma keeps_ret {A : Type} (a : A) (d : dict) (Q : A -> Prop) :
  Q a -> keeps (mret a) d Q.
Proof. intros HQ. split; [done|]. by intros a' [= <-]. Qed.

Lemma keeps_lift {A : Type} (o : outcome A) (d : dict) (Q : A -> Prop) :
  (forall a, o = Return a -> Q a) -> keeps (lift o) d Q.
Proof. intros HQ. split; [done|]. cbn. auto. Qed.

Lemma keeps_bind {A B : Type} (m : M A) (f : A -> M B) (d : dict)
    (P : A -> Prop) (Q : B -> Prop) :
  keeps m d P -> (forall a, P a -> keeps (f a) d Q) -> keeps (m ≫= f) d Q.
Proof.
  intros [Hd HP] Hf. unfold keeps. rewrite bind_run.
  destruct (m d) as [[a|e] d'] eqn:Hm; cbn in Hd; subst d'.
  - apply Hf, HP. done.
  - split; [done|]. intros a. discriminate.
Qed.

Lemma keeps_lift_bind {A B : Type} (o : outcome A) (f : A -> M B) (d : dict)
    (Q : B -> Prop) :
  (forall a, o = Return a -> keeps (f a) d Q) -> keeps (lift o ≫= f) d Q.
Proof.
  intros Hf. apply keeps_bind with (P := fun a => o = Return a); [|done].
  by apply keeps_lift.
Qed.

Lemma keeps_for_each {A B : Type} (body : B -> A -> M B) (l : list A) (d : dict)
    (I : B -> Prop) :
  (forall acc x, I acc -> keeps (body acc x) d I) ->
  forall acc, I acc -> keeps (for_each body acc l) d I.
Proof.
  intros Hbody. induction l as [|x l IH]; intros acc Hacc; cbn [for_each].
  - by apply keeps_ret.
  - apply keeps_bind with (P := I); [by apply Hbody|]. apply IH.
Qed.

Lemma ends_ret {A : Type} (a : A) (d : dict) (R : dict -> Prop) (Q : A -> dict -> Prop) :
  R d -> Q a d -> ends (mret a) d R Q.
Proof. intros HR HQ. split; [done|]. by intros a' [= <-]. Qed.

Lemma ends_bind {A B : Type} (m : M A) (f : A -> M B) (d : dict) (P : A -> Prop)
    (R : dict -> Prop) (Q : B -> dict -> Prop) :
  keeps m d P -> R d -> (forall a, P a -> ends (f a) d R Q) -> ends (m ≫= f) d R Q.
Proof.
  intros [Hd HP] HR Hf. unfold ends. rewrite bind_run.
  destruct (m d) as [[a|e] d'] eqn:Hm; cbn in Hd; subst d'.
  - apply Hf, HP. done.
  - split; [done|]. intros a. discriminate.
Qed.

Lemma ends_lift_bind {A B : Type} (o : outcome A) (f : A -> M B) (d : dict)
    (R : dict -> Prop) (Q : B -> dict -> Prop) :
  R d -> (forall a, o = Return a -> ends (f a) d R Q) -> ends (lift o ≫= f) d R Q.
Proof.
  intros HR Hf. apply ends_bind with (P := fun a => o = Return a); [|done..].
  by apply keeps_lift.
Qed.

(** ** The document after the translation *)

Lemma default_orders_upto_0 (data : dict) : default_orders_upto 0 data = data.
Proof.
  unfold default_orders_upto.
  destruct (data !! "metadata") as [[| | | | | |md]|] eqn:Hmd; try done.
  destruct (md !! "authors") as [[| | | | |aus|]|] eqn:Haus; try done.
  cbn. by apply set_authors_id.
Qed.

Lemma default_orders_upto_all (data : dict) (md : dict) (aus : list value) :
  data !! "metadata" = Some (VDict md) ->
  md !! "authors" = Some (VList aus) ->
  default_orders_upto (length aus) data = default_orders data.
Proof.
  intros Hmd Haus. unfold default_orders_upto, default_orders.
  rewrite Hmd, Haus. by rewrite firstn_all, skipn_all, app_nil_r.
Qed.

Lemma ends_read {A : Type} (f : dict -> M A) (d : dict) (R : dict -> Prop)
    (Q : A -> dict -> Prop) :
  ends (f d) d R Q -> ends (read ≫= f) d R Q.
Proof. unfold ends. by rewrite bind_run. Qed.

Lemma carry_snoc (a : Agents) (events : list Event) (e : Event) :
  carry a events -> event_agents e = a -> carry a (events ++ [e]).
Proof. intros H He. apply Forall_app. split; [done|]. by repeat constructor. Qed.

Create HintDb agents.
#[local] Hint Resolve carry_snoc : agents.
#[local] Hint Extern 1 (carry _ []) => apply Forall_nil : agents.

Lemma default_orders_same (data md : dict) (x : value) :
  data !! "metadata" = Some (VDict md) ->
  md !! "authors" = Some x ->
  is_list x = false ->
  default_orders data = data.
Proof.
  intros Hmd Hx Hno. unfold default_orders. rewrite Hmd, Hx. by destruct x.
Qed.

(** The authors are given as a string or as a dictionary: the loop runs over
    strings, stops at the first of them and writes nothing. *)
Ltac strings_only Hmd Hx :=
  rewrite authors_loop_no_dict;
  [ rewrite (default_orders_same _ _ _ Hmd Hx) by done;
    destruct (_ <$> _); cbn; (split; [done|]);
    [ intros ? [= <-]; split; [|done]; eauto with agents
    | intros ?; discriminate ]
  | apply forallb_forall; intros ? (? & <- & _)%in_map_iff; done ].

(** Whatever the document, the translation changes at most the author
    entries, by giving the first entries their default order; the events it
    returns carry the agents it was given, and all entries then have their
    default order. *)
Lemma update_submission_ends (fields : list string) (u cl : Agent) (p : option Agent)
    (d : dict) :
  ends (_update_submission fields u cl p) d
    (fun d' => exists k, d' = default_orders_upto k d)
    (fun events d' => carry (mkAgents u cl p) events /\ d' = default_orders d).
Proof.
  set (a := mkAgents u cl p).
  assert (HR : exists k, d = default_orders_upto k d).
  { exists 0. by rewrite default_orders_upto_0. }
  unfold _update_submission. fold a. apply ends_read.
  apply ends_bind with (P := carry a); [|done|intros ev1 H1].
  { destruct (d !! "submitter_is_author"); apply keeps_ret; eauto with agents. }
  apply ends_bind with (P := carry a); [|done|intros ev2 H2].
  { destruct (d !! "license"); [|by apply keeps_ret].
    apply keeps_lift_bind; intros name _. apply keeps_lift_bind; intros uri _.
    apply keeps_ret; eauto with agents. }
  apply ends_bind with (P := carry a); [|done|intros ev3 H3].
  { destruct (d !! "submitter_accepts_policy") as [v|]; [|by apply keeps_ret].
    destruct (py_bool v); apply keeps_ret; eauto with agents. }
  apply ends_bind with (P := carry a); [|done|intros ev4 H4].
  { destruct (d !! "primary_classification"); [|by apply keeps_ret].
    apply keeps_lift_bind; intros category _. apply keeps_ret; eauto with agents. }
  apply ends_lift_bind; [done|intros secondary _].
  apply ends_bind with (P := carry a); [|done|intros ev5 H5].
  { apply keeps_for_each; [|done]. intros acc x Hacc. unfold secondary_step.
    apply keeps_lift_bind; intros category _. apply keeps_ret; eauto with agents. }
  destruct (d !! "metadata") as [md|] eqn:Hmd.
  2: { apply ends_ret; [done|]. split; [done|].
       unfold default_orders. by rewrite Hmd. }
  apply ends_bind with (P := fun _ => True); [|done|intros metadata _].
  { apply keeps_for_each; [|done]. intros acc key _. unfold metadata_step.
    apply keeps_lift_bind; intros present _. destruct (negb present).
    - by apply keeps_ret.
    - apply keeps_lift_bind; intros v _. by apply keeps_ret. }
  apply ends_lift_bind; [done|intros has_authors Hhas].
  destruct has_authors.
  2: { apply ends_ret; [done|]. split; [eauto with agents|].
       unfold default_orders. rewrite Hmd.
       destruct md as [| | | | | |m]; try done. cbn in Hhas.
       injection Hhas as Hhas. apply bool_decide_eq_false in Hhas.
       destruct (m !! "authors") as [x|] eqn:Hx; [|done].
       exfalso. apply Hhas. eauto. }
  apply ends_lift_bind; [done|intros aus Haus].
  destruct md as [| | | | | |m]; try done. cbn in Haus.
  destruct (m !! "authors") as [x|] eqn:Hx; [|done]. injection Haus as ->.
  apply ends_lift_bind; [done|intros items Hitems].
  unfold ends. rewrite bind_run.
  destruct aus as [| | | | s | aus | keys]; try done; cbn in Hitems;
    injection Hitems as <-.
  - strings_only Hmd Hx.
  - destruct (authors_loop_spec aus 0 [] d m aus Hmd Hx eq_refl)
      as (k & Hk & Hsnd & Hfst).
    destruct (authors_loop 0 aus [] d) as [[authors|e] d'] eqn:Hloop;
      cbn [fst snd] in Hsnd, Hfst; cbn [mret M_ret fst snd].
    + destruct (Hfst authors eq_refl) as (-> & _ & _).
      assert (Hd' : d' = default_orders d).
      { rewrite Hsnd. unfold default_orders. rewrite Hmd, Hx.
        rewrite firstn_all, skipn_all, app_nil_r. done. }
      split; [exists (length aus); by rewrite (default_orders_upto_all _ _ _ Hmd Hx)|].
      intros events [= <-]. split; [|done]. eauto with agents.
    + split; [|intros events; discriminate].
      exists k. rewrite Hsnd. unfold default_orders_upto. rewrite Hmd, Hx. done.
  - strings_only Hmd Hx.
Qed.

(** ** Conforming documents *)

Lemma has_key_inv (key : string) (v : value) :
  has_key key v = true ->
  exists d x, v = VDict d /\ d !! key = Some x /\ item v key = x.
Proof.
  destruct v as [| | | | | |d]; try done. cbn.
  intros [x Hx]%bool_decide_eq_true. exists d, x. unfold item. cbn. by rewrite Hx.
Qed.

Lemma stage_eq {B : Type} (o : option value) (acc : list Event)
    (g : value -> M (list Event)) (es : value -> list Event)
    (f : list Event -> M B) (d : dict) :
  (forall v, o = Some v -> g v d = (Return (acc ++ es v), d)) ->
  (match o with Some v => g v | None => mret acc end ≫= f) d
  = f (acc ++ match o with Some v => es v | None => [] end) d.
Proof.
  intros Hg. rewrite bind_run. destruct o as [v|].
  - by rewrite (Hg v eq_refl).
  - cbn. by rewrite app_nil_r.
Qed.

Lemma for_each_secondary (a : Agents) (l : list value) (d : dict) :
  forallb (has_key "category") l = true ->
  forall acc,
    for_each (secondary_step a) acc l d
    = (Return (acc ++ ((fun c => AddSecondaryClassification a (item c "category")) <$> l)), d).
Proof.
  induction l as [|c l IH]; intros Hl acc; cbn [for_each].
  - cbn. by rewrite app_nil_r.
  - cbn [forallb] in Hl. apply andb_prop in Hl as [Hc Hl].
    destruct (has_key_inv _ _ Hc) as (m & x & -> & Hx & Hitem).
    rewrite bind_run. unfold secondary_step at 1. rewrite bind_lift. cbn [py_getitem].
    rewrite Hx. cbn [mret M_ret]. rewrite (IH Hl). rewrite fmap_cons, Hitem.
    by rewrite <- app_assoc.
Qed.

Lemma for_each_metadata (m : dict) (fields : list string) (d : dict) :
  forall acc,
    for_each (metadata_step (VDict m)) acc fields d
    = (Return (acc ++ omap (fun key => pair key <$> m !! key) fields), d).
Proof.
  induction fields as [|key fields IH]; intros acc; cbn [for_each].
  - cbn. by rewrite app_nil_r.
  - rewrite bind_run. unfold metadata_step at 1. rewrite bind_lift.
    cbn [py_in py_getitem]. unfold omap. cbn [list_omap]. fold (@omap list _).
    destruct (m !! key) as [v|] eqn:Hv.
    + rewrite bool_decide_true by eauto. cbn [negb]. rewrite bind_lift.
      cbn [mret M_ret fmap option_fmap option_map]. rewrite IH. by rewrite <- app_assoc.
    + rewrite bool_decide_false by (intros [? ?]; congruence). cbn [negb mret M_ret].
      by rewrite IH.
Qed.

(** On a conforming document the translation returns the events of the
    rules and leaves the document with all default orders written. *)
Lemma update_submission_conforming (fields : list string) (u cl : Agent)
    (p : option Agent) (d : dict) :
  conforms d = true ->
  _update_submission fields u cl p d
  = (Return (compile_rules fields (mkAgents u cl p) d), default_orders d).
Proof.
  intros H. unfold conforms in H.
  apply andb_prop in H as [H Hmeta]. apply andb_prop in H as [H Hsec].
  apply andb_prop in H as [Hlic Hprim].
  unfold _update_submission, compile_rules. set (a := mkAgents u cl p).
  rewrite bind_run. cbn [read]. cbv zeta.
  rewrite stage_eq with (es := fun v => [AssertAuthorship a v]) by done.
  rewrite stage_eq
    with (es := fun license => [SelectLicense a (item license "name") (item license "uri")]).
  2: { intros lic Hl. rewrite Hl in Hlic.
       destruct (has_key_inv _ _ Hlic) as (m & x & -> & Hx & Hitem).
       rewrite !bind_lift. cbn [py_get py_getitem]. rewrite Hx, <- Hitem. done. }
  rewrite stage_eq with (es := fun v => if py_bool v then [AcceptPolicy a] else []).
  2: { intros v _. destruct (py_bool v); [done|]. cbn. by rewrite app_nil_r. }
  rewrite stage_eq
    with (es := fun primary => [SetPrimaryClassification a (item primary "category")]).
  2: { intros pc Hp. rewrite Hp in Hprim.
       destruct (has_key_inv _ _ Hprim) as (m & x & -> & Hx & Hitem).
       rewrite !bind_lift. cbn [py_getitem]. rewrite Hx, <- Hitem. done. }
  rewrite bind_lift.
  assert (Hiter : py_iter (default (VList []) (d !! "secondary_classification"))
                  = Return (list_of (default (VList []) (d !! "secondary_classification")))
                  /\ forallb (has_key "category")
                       (list_of (default (VList []) (d !! "secondary_classification"))) = true).
  { destruct (d !! "secondary_classification") as [[| | | | |l|]|]; done. }
  destruct Hiter as [-> Hall]. rewrite bind_run, (for_each_secondary _ _ _ Hall).
  destruct (d !! "metadata") as [[| | | | | |md]|] eqn:Hmd; try done.
  2: { cbn [mret M_ret]. unfold default_orders. rewrite Hmd.
       by rewrite <- !app_assoc, app_nil_r. }
  rewrite bind_run, for_each_metadata. rewrite bind_lift. cbn [py_in dict_of app].
  destruct (md !! "authors") as [[| | | | |aus|]|] eqn:Haus; try done.
  2: { rewrite bool_decide_false by (intros [? ?]; congruence).
       cbn [mret M_ret]. unfold default_orders. rewrite Hmd, Haus.
       by rewrite <- !app_assoc. }
  rewrite bool_decide_true by eauto.
  rewrite bind_lift. cbn [py_getitem]. rewrite Haus.
  rewrite bind_lift. cbn [py_iter list_of]. rewrite bind_run.
  destruct (authors_loop_spec aus 0 [] d md aus Hmd Haus eq_refl) as (k & Hk & Hsnd & Hfst).
  destruct (authors_loop_returns aus Hmeta 0 [] d) as (authors & Hret).
  destruct (Hfst authors Hret) as (-> & _ & ->).
  destruct (authors_loop 0 aus [] d) as [o d'] eqn:Hloop.
  cbn [fst snd] in Hsnd, Hret. subst o. unfold mret, M_ret. f_equal.
  - f_equal. by rewrite <- !app_assoc.
  - rewrite Hsnd. unfold default_orders. rewrite Hmd, Haus.
    by rewrite firstn_all, skipn_all, app_nil_r.
Qed.

(** ** The controllers, case by case *)

Lemma create_submission_run (env : Env) (data : dict) (headers : gmap string string)
    (user_data client_data : dict) (token : string) :
  create_submission env data headers user_data client_data token []
  = let t0 := [Logged (Debug "Received request to create submission")] in
    match _get_agents headers user_data client_data with
    | Raise e => (Raise e, t0)
    | Return (u, c, p) =>
        let t1 := t0 ++ [Logged (DebugAgents u c p)] in
        match fst (_update_submission (FIELDS env) u c p data) with
        | Raise e => create_submission_except e t1
        | Return new_events =>
            let events := CreateSubmission (mkAgents u c p) :: new_events in
            let t2 := t1 ++ [Saved events None] in
            match save env events None with
            | Stored submission _ =>
                (Return (to_dict submission, HTTP_201_CREATED,
                         {[ "Location" :=
                              url_for env "submission.get_submission"
                                [("submission_id", UrlValue (submission_id submission))] ]}),
                 t2)
            | Failed e => create_submission_except (FromStore e) t2
            end
        end
    end.
Proof.
  unfold create_submission. cbv zeta.
  unfold mbind, C_bind, logger_debug, emit, pure_outcome, try_except, ev_save.
  cbn [app].
  destruct (_get_agents headers user_data client_data) as [[[u c] p]|e]; [|done].
  destruct (fst (_update_submission (FIELDS env) u c p data)) as [new_events|e].
  - cbn [app]. destruct (save env _ None) as [submission events|[[] ty text]]; done.
  - destruct e as [| | |[[] ty text]| | |]; done.
Qed.

Lemma update_submission_run (env : Env) (data : dict) (headers : gmap string string)
    (user_data client_data : dict) (token sid : string) :
  update_submission env data headers user_data client_data token sid []
  = match _get_agents headers user_data client_data with
    | Raise e => (Raise e, [])
    | Return (u, c, p) =>
        match fst (_update_submission (FIELDS env) u c p data) with
        | Raise e => update_submission_except sid e []
        | Return new_events =>
            let t1 := [Saved new_events (Some sid)] in
            match save env new_events (Some sid) with
            | Stored submission _ =>
                (Return (to_dict submission, HTTP_200_OK,
                         {[ "Location" :=
                              url_for env "submit.get_submission"
                                [("creator", UrlAgent u);
                                 ("submission_id", UrlValue (submission_id submission))] ]}),
                 t1)
            | Failed e => update_submission_except sid (FromStore e) t1
            end
        end
    end.
Proof.
  unfold update_submission. cbv zeta.
  unfold mbind, C_bind, emit, pure_outcome, try_except, ev_save.
  destruct (_get_agents headers user_data client_data) as [[[u c] p]|e]; [|done].
  destruct (fst (_update_submission (FIELDS env) u c p data)) as [new_events|e].
  - cbn [app]. destruct (save env _ _) as [submission events|[[] ty text]]; done.
  - destruct e as [| | |[[] ty text]| | |]; done.
Qed.

Lemma get_submission_run (env : Env) (sid : string) (user client token : option string) :
  get_submission env sid user client token []
  = match load env sid with
    | Stored submission _ => (Return (to_dict submission, HTTP_200_OK, ∅), [Loaded sid])
    | Failed e => get_submission_except (FromStore e) [Loaded sid]
    end.
Proof.
  unfold get_submission.
  unfold mbind, C_bind, emit, try_except, ev_load. cbn [app].
  destruct (load env sid) as [submission events|[[] ty text]]; done.
Qed.

(** The [except] clauses hand nothing to the store. *)
Lemma saved_events_app (t1 t2 : list Effect) :
  saved_events (t1 ++ t2) = saved_events t1 ++ saved_events t2.
Proof. unfold saved_events. apply omap_app. Qed.

Lemma create_submission_except_saved {A : Type} (e : Exception) (t : list Effect) :
  saved_events (snd (create_submission_except (A := A) e t)) = saved_events t.
Proof.
  destruct e as [| | |[[] ty text]| | |];
    unfold create_submission_except, update_submission_except, unhandled, throw,
      mbind, C_bind, emit;
    cbn [snd]; try done; by rewrite saved_events_app, app_nil_r.
Qed.

Lemma update_submission_except_saved {A : Type} (sid : string) (e : Exception)
    (t : list Effect) :
  saved_events (snd (update_submission_except (A := A) sid e t)) = saved_events t.
Proof.
  destruct e as [| | |[[] ty text]| | |];
    unfold create_submission_except, update_submission_except, unhandled, throw,
      mbind, C_bind, emit;
    cbn [snd]; try done; by rewrite saved_events_app, app_nil_r.
Qed.

(** ** The events of the rules, kind by kind *)

Lemma filter_secondary (f : Event -> bool) (a : Agents) (l : list value) :
  (forall c, f (AddSecondaryClassification a c) = false) ->
  List.filter f ((fun c => AddSecondaryClassification a (item c "category")) <$> l) = [].
Proof.
  intros Hf. induction l as [|c l IH]; [done|].
  rewrite fmap_cons. cbn [List.filter]. by rewrite Hf.
Qed.

Lemma metadata_keys (md : dict) (fields : list string) :
  (omap (fun key => pair key <$> md !! key) fields).*1
  = List.filter (fun key => bool_decide (is_Some (md !! key))) fields.
Proof.
  induction fields as [|key fields IH]; [done|].
  unfold omap. cbn [list_omap List.filter]. fold (@omap list _).
  destruct (md !! key) as [v|] eqn:Hv.
  - rewrite bool_decide_true by eauto. cbn. by rewrite IH.
  - rewrite bool_decide_false by (intros [? ?]; congruence). cbn. by rewrite IH.
Qed.

Lemma metadata_values (md : dict) (fields : list string) (key : string) (v : value) :
  (key, v) ∈ omap (fun key => pair key <$> md !! key) fields -> md !! key = Some v.
Proof.
  intros (k & _ & Hk)%list_elem_of_omap.
  destruct (md !! k) as [x|] eqn:Hx; [|done]. cbn in Hk. by injection Hk as -> ->.
Qed.

Lemma conforms_authors (data md : dict) (aus : list value) :
  conforms data = true ->
  data !! "metadata" = Some (VDict md) ->
  md !! "authors" = Some (VList aus) ->
  forall i au, aus !! i = Some au -> exists entry, au = VDict entry.
Proof.
  intros Hc Hmd Haus i au Hi. unfold conforms in Hc.
  apply andb_prop in Hc as [_ Hc]. rewrite Hmd, Haus in Hc.
  assert (Hau : is_dict au = true).
  { eapply forallb_forall; [exact Hc|]. apply list_elem_of_In. by eapply list_elem_of_lookup_2. }
  destruct au as [| | | | | |entry]; try done. by exists entry.
Qed.

(** * The claims *)

(** C1.  The claim asks for a client fault when the store rejects the events
    as invalid.  On the request of the accompanying tests, with a store that
    raises [InvalidEvent], both [create_submission] and [update_submission]
    raise [InternalServerError] with the text of the exception, which is a
    server fault and no validation error. *)
Theorem invalid_event_is_server_fault (ty text : string) :
  let env := ex_env (Failed (mkStoreExc InvalidEvent ty text)) in
  fst (create_submission env ex_primary ∅ ex_user_data ex_client_data "asdf1234" [])
  = Raise (InternalServerError text)
  /\ fst (update_submission env ex_primary ∅ ex_user_data ex_client_data "asdf1234" "1" [])
     = Raise (InternalServerError text)
  /\ is_validation_error (InternalServerError text) = false.
Proof.
  cbv zeta. rewrite create_submission_run, update_submission_run.
  repeat split; vm_compute; reflexivity.
Qed.

(** C2 (amended).  For every document whose [license] is an object without
    [uri], the translation raises [KeyError] for ['uri']; it returns no
    events and leaves the document as it was. *)
Theorem license_without_uri_raises_KeyError (fields : list string) (u cl : Agent)
    (p : option Agent) (data license : dict) :
  data !! "license" = Some (VDict license) ->
  license !! "uri" = None ->
  _update_submission fields u cl p data = (Raise (KeyError "uri"), data).
Proof.
  intros Hlic Huri. unfold _update_submission. rewrite bind_run. cbn [read]. cbv zeta.
  rewrite stage_eq with (es := fun v => [AssertAuthorship (mkAgents u cl p) v]) by done.
  rewrite bind_run, Hlic. rewrite !bind_lift. cbn [py_get py_getitem]. by rewrite Huri.
Qed.

Lemma license_without_uri_raises_KeyError_witness :
  _update_submission ex_fields ex_user ex_client None ex_license
  = (Raise (KeyError "uri"), ex_license).
Proof.
  apply (license_without_uri_raises_KeyError ex_fields ex_user ex_client None ex_license
           {[ "name" := VStr "CC BY 4.0" ]}); reflexivity.
Defined.

(** C2 (as stated) fails: on a document whose license has a name and no
    [uri], the exception of the translation is no validation error. *)
Lemma license_without_uri_no_validation_error :
  ~ exists e data',
      _update_submission ex_fields ex_user ex_client None ex_license = (Raise e, data')
      /\ is_validation_error e = true.
Proof.
  intros (e & data' & Hrun & Hval).
  assert (Hfst : fst (_update_submission ex_fields ex_user ex_client None ex_license)
                 = Raise (KeyError "uri")) by (vm_compute; reflexivity).
  rewrite Hrun in Hfst. cbn in Hfst. injection Hfst as ->. discriminate.
Qed.

(** C3 (amended).  The translation writes into the document it is given, but
    only into the author entries: when it returns, the document is the input
    in which every author entry without [order] has its position as [order];
    when it raises, this holds of the first [k] entries, for some [k].
    Nothing else in the document changes. *)
Theorem update_submission_frame (fields : list string) (u cl : Agent) (p : option Agent)
    (data : dict) :
  match fst (_update_submission fields u cl p data) with
  | Return _ => snd (_update_submission fields u cl p data) = default_orders data
  | Raise _ =>
      exists k, snd (_update_submission fields u cl p data) = default_orders_upto k data
  end.
Proof.
  destruct (update_submission_ends fields u cl p data) as [Hupto Hret].
  destruct (fst (_update_submission fields u cl p data)) as [events|e]; [|done].
  by destruct (Hret events eq_refl).
Qed.

(** C3 (as stated) fails: the author entry of the sample update has no
    [order] before the translation and has one after it. *)
Lemma update_submission_writes_order :
  snd (_update_submission ex_fields ex_user ex_client None ex_update) <> ex_update.
Proof.
  intros Heq. apply (f_equal first_author_order) in Heq.
  vm_compute in Heq. discriminate.
Qed.

(** C4.  Whatever the request, [create_submission] hands the store at most
    one list of events, and every list it hands over has [CreateSubmission]
    at index 0: the list is that event followed by the events of the
    document, also when the document yields none. *)
Theorem create_submission_saves_CreateSubmission_first (env : Env) (data : dict)
    (headers : gmap string string) (user_data client_data : dict) (token : string) :
  let trace := snd (create_submission env data headers user_data client_data token []) in
  Forall (fun events => exists a, events !! 0 = Some (CreateSubmission a))
    (saved_events trace)
  /\ saved_events trace
     = match _get_agents headers user_data client_data with
       | Return (u, c, p) =>
           match fst (_update_submission (FIELDS env) u c p data) with
           | Return new_events => [CreateSubmission (mkAgents u c p) :: new_events]
           | Raise _ => []
           end
       | Raise _ => []
       end.
Proof.
  cbv zeta. rewrite create_submission_run. cbv zeta.
  destruct (_get_agents headers user_data client_data) as [[[u c] p]|e];
    [|by split; [constructor|]].
  destruct (fst (_update_submission (FIELDS env) u c p data)) as [new_events|e].
  - destruct (save env _ None) as [submission events|e];
      rewrite ?create_submission_except_saved; cbn;
      (split; [|done]); repeat constructor; by eexists.
  - rewrite create_submission_except_saved. by split; [constructor|].
Qed.

(** C5.  With the identifier and e-mail address of the authenticated user and
    the identifier of the client at hand: when the headers have
    [X-On-Behalf-Of], the creator is a user built from the header value alone
    (empty e-mail address, no endorsements), the proxy is the authenticated
    user and the client is the calling application; without the header the
    creator is the authenticated user and there is no proxy. *)
Theorem get_agents_on_behalf_of (headers : gmap string string)
    (user_data client_data : dict) (user_id email client_id : value) :
  user_data !! "user_id" = Some user_id ->
  user_data !! "email" = Some email ->
  client_data !! "client_id" = Some client_id ->
  _get_agents headers user_data client_data
  = Return
      match headers !! "X-On-Behalf-Of" with
      | Some subject =>
          (User (VStr subject) (VStr "") (Some (VStr "")) [],
           Client client_id,
           Some (User user_id email None []))
      | None => (User user_id email None [], Client client_id, None)
      end.
Proof.
  intros Hid Hemail Hclient. unfold _get_agents.
  unfold mbind, outcome_bind, obind. cbn [py_getitem].
  rewrite Hid, Hemail, Hclient. by destruct (headers !! "X-On-Behalf-Of").
Qed.

Lemma get_agents_on_behalf_of_witness :
  _get_agents ex_delegation ex_user_data ex_client_data
  = Return (User (VStr "8675309") (VStr "") (Some (VStr "")) [], ex_client, Some ex_user)
  /\ _get_agents ∅ ex_user_data ex_client_data = Return (ex_user, ex_client, None).
Proof.
  split.
  - apply (get_agents_on_behalf_of ex_delegation ex_user_data ex_client_data
             (VInt 1234) (VStr "foo@bar.baz") (VInt 5678)); reflexivity.
  - exact (get_agents_on_behalf_of ∅ ex_user_data ex_client_data
             (VInt 1234) (VStr "foo@bar.baz") (VInt 5678) eq_refl eq_refl eq_refl).
Defined.

(** C6.  Every event of every list that [create_submission] or
    [update_submission] hands to the store, the leading [CreateSubmission]
    included, carries the agents resolved from the request. *)
Theorem saved_events_carry_agents (env : Env) (data : dict)
    (headers : gmap string string) (user_data client_data : dict) (token sid : string)
    (u c : Agent) (p : option Agent) :
  _get_agents headers user_data client_data = Return (u, c, p) ->
  Forall (carry (mkAgents u c p))
    (saved_events (snd (create_submission env data headers user_data client_data token [])))
  /\ Forall (carry (mkAgents u c p))
       (saved_events
          (snd (update_submission env data headers user_data client_data token sid []))).
Proof.
  intros Hag. rewrite create_submission_run, update_submission_run, Hag. cbv zeta.
  destruct (update_submission_ends (FIELDS env) u c p data) as [_ Hret].
  destruct (fst (_update_submission (FIELDS env) u c p data)) as [new_events|e].
  - destruct (Hret new_events eq_refl) as [Hcarry _]. split.
    + destruct (save env _ None) as [submission events|e];
        rewrite ?create_submission_except_saved; cbn;
        repeat constructor; done.
    + destruct (save env _ (Some sid)) as [submission events|e];
        rewrite ?update_submission_except_saved; cbn;
        repeat constructor; done.
  - rewrite create_submission_except_saved, update_submission_except_saved.
    split; constructor.
Qed.

Lemma saved_events_carry_agents_witness :
  Forall (carry (mkAgents (User (VStr "8675309") (VStr "") (Some (VStr "")) [])
                   ex_client (Some ex_user)))
    (saved_events
       (snd (create_submission (ex_env (Stored ex_submission [])) ex_update ex_delegation
               ex_user_data ex_client_data "asdf1234" [])))
  /\ saved_events
       (snd (create_submission (ex_env (Stored ex_submission [])) ex_update ex_delegation
               ex_user_data ex_client_data "asdf1234" [])) <> [].
Proof.
  split.
  - apply (saved_events_carry_agents (ex_env (Stored ex_submission [])) ex_update
             ex_delegation ex_user_data ex_client_data "asdf1234" "1").
    reflexivity.
  - vm_compute. discriminate.
Defined.

(** C7.  For a conforming document with a sequence of authors under
    [metadata.authors], the translation returns events among which there is
    one [UpdateAuthors]; it holds an author for each entry, in the order of the
    input: an entry without [order] with its zero-based position as [order],
    an entry with [order] as it is. *)
Theorem update_authors_default_order (fields : list string) (u cl : Agent)
    (p : option Agent) (data md : dict) (aus : list value) :
  conforms data = true ->
  data !! "metadata" = Some (VDict md) ->
  md !! "authors" = Some (VList aus) ->
  exists events authors,
    fst (_update_submission fields u cl p data) = Return events
    /\ List.filter is_UpdateAuthors events = [UpdateAuthors (mkAgents u cl p) authors]
    /\ length authors = length aus
    /\ forall i au,
         aus !! i = Some au ->
         exists entry,
           au = VDict entry
           /\ authors !! i
              = Some (mkAuthor match entry !! "order" with
                               | Some _ => entry
                               | None => <["order" := VInt (Z.of_nat i)]> entry
                               end).
Proof.
  intros Hc Hmd Haus. rewrite (update_submission_conforming _ _ _ _ _ Hc). cbn [fst].
  exists (compile_rules fields (mkAgents u cl p) data),
         (imap (fun i au => mkAuthor (dict_of (default_order i au))) aus).
  split; [done|]. split; [|split].
  - unfold compile_rules. rewrite Hmd. cbn [dict_of]. rewrite Haus. cbn [list_of].
    rewrite !List.filter_app, filter_secondary by done.
    destruct (data !! "submitter_is_author"), (data !! "license"),
      (data !! "submitter_accepts_policy") as [policy|],
      (data !! "primary_classification");
      try destruct (py_bool policy); reflexivity.
  - apply length_imap.
  - intros i au Hi.
    destruct (conforms_authors _ _ _ Hc Hmd Haus i au Hi) as [entry ->].
    exists entry. split; [done|]. rewrite list_lookup_imap, Hi. cbn.
    by destruct (entry !! "order").
Qed.

Lemma update_authors_default_order_witness :
  exists events authors,
    fst (_update_submission ex_fields ex_user ex_client None ex_update) = Return events
    /\ List.filter is_UpdateAuthors events
       = [UpdateAuthors (mkAgents ex_user ex_client None) authors]
    /\ length authors = 1
    /\ authors !! 0 = Some (mkAuthor (<["order" := VInt 0]> ex_jane)).
Proof.
  destruct (update_authors_default_order ex_fields ex_user ex_client None ex_update
              ex_metadata [VDict ex_jane] eq_refl eq_refl eq_refl)
    as (events & authors & Hrun & Hone & Hlen & Hentries).
  exists events, authors. repeat split; try done.
  destruct (Hentries 0 (VDict ex_jane) eq_refl) as (entry & [= <-] & Hentry).
  exact Hentry.
Defined.

(** C8.  For a conforming document with [metadata], the translation returns
    events among which there is one [UpdateMetadata], whatever the keys of
    the metadata; its fields are those names of the field list that are keys
    of the metadata, each with the value the metadata has for it (the value
    under [authors] aside, which the loop over the authors goes on to
    update); the other keys of the metadata are dropped. *)
Theorem update_metadata_allowed_fields (fields : list string) (u cl : Agent)
    (p : option Agent) (data md : dict) :
  conforms data = true ->
  data !! "metadata" = Some (VDict md) ->
  exists events metadata,
    fst (_update_submission fields u cl p data) = Return events
    /\ List.filter is_UpdateMetadata events = [UpdateMetadata (mkAgents u cl p) metadata]
    /\ metadata.*1 = List.filter (fun key => bool_decide (is_Some (md !! key))) fields
    /\ forall key v, (key, v) ∈ metadata -> key <> "authors" -> md !! key = Some v.
Proof.
  intros Hc Hmd. rewrite (update_submission_conforming _ _ _ _ _ Hc). cbn [fst].
  exists (compile_rules fields (mkAgents u cl p) data),
         (omap (fun key => pair key <$> md !! key) fields).
  split; [done|]. split; [|split].
  - unfold compile_rules. rewrite Hmd. cbn [dict_of].
    rewrite !List.filter_app, filter_secondary by done.
    destruct (data !! "submitter_is_author"), (data !! "license"),
      (data !! "submitter_accepts_policy") as [policy|],
      (data !! "primary_classification"), (md !! "authors");
      try destruct (py_bool policy); reflexivity.
  - apply metadata_keys.
  - intros key v Hin _. by eapply metadata_values.
Qed.

Lemma update_metadata_allowed_fields_witness :
  exists events,
    fst (_update_submission ex_fields ex_user ex_client None ex_update) = Return events
    /\ List.filter is_UpdateMetadata events
       = [UpdateMetadata (mkAgents ex_user ex_client None) [("title", VStr "foo title")]].
Proof.
  destruct (update_metadata_allowed_fields ex_fields ex_user ex_client None ex_update
              ex_metadata eq_refl eq_refl)
    as (events & metadata & Hrun & Hone & Hkeys & Hvalues).
  exists events. split; [done|].
  assert (Hfst : fst (_update_submission ex_fields ex_user ex_client None ex_update)
                 = Return (compile_rules ex_fields (mkAgents ex_user ex_client None) ex_update))
    by (vm_compute; reflexivity).
  rewrite Hrun in Hfst. injection Hfst as ->. vm_compute. reflexivity.
Defined.

(** C9.  When the store is reached and raises an exception that is none of
    [InvalidEvent], [SaveError] and [NoSuchSubmission], each of the three
    controllers logs the exception, type and text, as an unhandled one and
    then raises [InternalServerError] with a fixed description. *)
Theorem unrecognized_store_exception_logged (env : Env) (e : StoreExc) :
  exc_kind e = Unrecognized ->
  (forall data headers user_data client_data token u c p new_events,
     _get_agents headers user_data client_data = Return (u, c, p) ->
     fst (_update_submission (FIELDS env) u c p data) = Return new_events ->
     save env (CreateSubmission (mkAgents u c p) :: new_events) None = Failed e ->
     create_submission env data headers user_data client_data token []
     = (Raise (InternalServerError "Encountered unhandled exception"),
        [Logged (Debug "Received request to create submission");
         Logged (DebugAgents u c p);
         Saved (CreateSubmission (mkAgents u c p) :: new_events) None;
         Logged (ErrorUnhandled (FromStore e))]))
  /\ (forall data headers user_data client_data token sid u c p new_events,
        _get_agents headers user_data client_data = Return (u, c, p) ->
        fst (_update_submission (FIELDS env) u c p data) = Return new_events ->
        save env new_events (Some sid) = Failed e ->
        update_submission env data headers user_data client_data token sid []
        = (Raise (InternalServerError "Encountered unhandled exception"),
           [Saved new_events (Some sid); Logged (ErrorUnhandled (FromStore e))]))
  /\ (forall sid user client token,
        load env sid = Failed e ->
        get_submission env sid user client token []
        = (Raise (InternalServerError "Encountered unhandled exception"),
           [Loaded sid; Logged (ErrorUnhandled (FromStore e))])).
Proof.
  intros Hkind. destruct e as [kind ty text]. cbn in Hkind. subst kind.
  split; [|split].
  - intros * Hag Hrun Hsave. rewrite create_submission_run, Hag, Hrun. cbv zeta.
    by rewrite Hsave.
  - intros * Hag Hrun Hsave. rewrite update_submission_run, Hag, Hrun. cbv zeta.
    by rewrite Hsave.
  - intros * Hload. by rewrite get_submission_run, Hload.
Qed.

Lemma unrecognized_store_exception_logged_witness :
  let e := mkStoreExc Unrecognized "<class 'RuntimeError'>" "boom" in
  create_submission (ex_env (Failed e)) ex_primary ∅ ex_user_data ex_client_data
    "asdf1234" []
  = (Raise (InternalServerError "Encountered unhandled exception"),
     [Logged (Debug "Received request to create submission");
      Logged (DebugAgents ex_user ex_client None);
      Saved [CreateSubmission (mkAgents ex_user ex_client None);
             SetPrimaryClassification (mkAgents ex_user ex_client None) (VStr "astro-ph")]
        None;
      Logged (ErrorUnhandled (FromStore e))])
  /\ get_submission (ex_env (Failed e)) "1" None None None []
     = (Raise (InternalServerError "Encountered unhandled exception"),
        [Loaded "1"; Logged (ErrorUnhandled (FromStore e))]).
Proof.
  cbv zeta.
  destruct (unrecognized_store_exception_logged
              (ex_env (Failed (mkStoreExc Unrecognized "<class 'RuntimeError'>" "boom")))
              (mkStoreExc Unrecognized "<class 'RuntimeError'>" "boom") eq_refl)
    as (Hcreate & _ & Hget).
  split.
  - apply (Hcreate ex_primary ∅ ex_user_data ex_client_data "asdf1234"
             ex_user ex_client None
             [SetPrimaryClassification (mkAgents ex_user ex_client None) (VStr "astro-ph")]);
      vm_compute; reflexivity.
  - apply (Hget "1" None None None). reflexivity.
Defined.

(** C10.  The result of [get_submission] does not depend on the user, the
    client and the token it is called with. *)
Theorem get_submission_ignores_credentials (env : Env) (sid : string)
    (user client token user' client' token' : option string) :
  get_submission env sid user client token [] = get_submission env sid user' client' token' [].
Proof. by rewrite !get_submission_run. Qed.

(** * Further properties of the translation *)

Lemma filter_fmap_all {A : Type} (f : Event -> bool) (g : A -> Event) (l : list A) :
  (forall x, f (g x) = true) -> List.filter f (g <$> l) = g <$> l.
Proof.
  intros Hf. induction l as [|x l IH]; [done|].
  rewrite fmap_cons. cbn [List.filter]. by rewrite Hf, IH.
Qed.

(** X1.  A document with none of the six keys the translation looks for
    yields no event and is left as it is, whatever else it contains. *)
Theorem no_recognized_key_no_event (fields : list string) (u cl : Agent)
    (p : option Agent) (data : dict) :
  data !! "submitter_is_author" = None ->
  data !! "license" = None ->
  data !! "submitter_accepts_policy" = None ->
  data !! "primary_classification" = None ->
  data !! "secondary_classification" = None ->
  data !! "metadata" = None ->
  _update_submission fields u cl p data = (Return [], data).
Proof.
  intros H1 H2 H3 H4 H5 H6.
  assert (Hc : conforms data = true) by (unfold conforms; by rewrite H2, H4, H5, H6).
  rewrite (update_submission_conforming _ _ _ _ _ Hc).
  unfold compile_rules, default_orders. by rewrite H1, H2, H3, H4, H5, H6.
Qed.

Lemma no_recognized_key_no_event_witness :
  _update_submission ex_fields ex_user ex_client None ex_other = (Return [], ex_other).
Proof.
  apply (no_recognized_key_no_event ex_fields ex_user ex_client None ex_other);
    reflexivity.
Defined.

(** X2.  A conforming document with [n] secondary classifications yields [n]
    [AddSecondaryClassification] events, one for each entry, with its
    category, in the order of the input. *)
Theorem secondary_classifications_in_order (fields : list string) (u cl : Agent)
    (p : option Agent) (data : dict) (l : list value) :
  conforms data = true ->
  data !! "secondary_classification" = Some (VList l) ->
  exists events,
    fst (_update_submission fields u cl p data) = Return events
    /\ List.filter is_AddSecondaryClassification events
       = (fun c => AddSecondaryClassification (mkAgents u cl p) (item c "category")) <$> l.
Proof.
  intros Hc Hsec. rewrite (update_submission_conforming _ _ _ _ _ Hc). cbn [fst].
  eexists. split; [done|].
  unfold compile_rules. rewrite Hsec. cbn [default list_of].
  rewrite !List.filter_app, filter_fmap_all by done.
  destruct (data !! "submitter_is_author"), (data !! "license"),
    (data !! "submitter_accepts_policy") as [policy|],
    (data !! "primary_classification"), (data !! "metadata") as [md|];
    try destruct (py_bool policy); try destruct (dict_of md !! "authors");
    cbn; by rewrite ?app_nil_r.
Qed.

Lemma secondary_classifications_in_order_witness :
  exists events,
    fst (_update_submission ex_fields ex_user ex_client None ex_classified) = Return events
    /\ List.filter is_AddSecondaryClassification events
       = [AddSecondaryClassification (mkAgents ex_user ex_client None) (VStr "astro-ph.CO");
          AddSecondaryClassification (mkAgents ex_user ex_client None) (VStr "hep-th")].
Proof.
  destruct (secondary_classifications_in_order ex_fields ex_user ex_client None ex_classified
              [VDict {[ "category" := VStr "astro-ph.CO" ]};
               VDict {[ "category" := VStr "hep-th" ]}] eq_refl eq_refl)
    as (events & Hrun & Hsec).
  exists events. split; [done|]. rewrite Hsec. vm_compute. reflexivity.
Defined.

(** Lists of events in the order of their kinds, all of rank [k] or more. *)
Lemma ranked_cons (k : nat) (l1 l2 : list Event) :
  Forall (fun e => event_rank e = k) l1 ->
  StronglySorted (fun e1 e2 => event_rank e1 <= event_rank e2) l2
  /\ Forall (fun e => S k <= event_rank e) l2 ->
  StronglySorted (fun e1 e2 => event_rank e1 <= event_rank e2) (l1 ++ l2)
  /\ Forall (fun e => k <= event_rank e) (l1 ++ l2).
Proof.
  intros H1 [Hs H2]. split.
  - induction H1 as [|e l1 He H1 IH]; [done|].
    cbn [app]. constructor; [done|].
    apply Forall_app. split.
    + eapply Forall_impl; [exact H1|]. cbn. intros e' ->. lia.
    + eapply Forall_impl; [exact H2|]. cbn. intros e' ?. lia.
  - apply Forall_app. split.
    + eapply Forall_impl; [exact H1|]. cbn. intros e' ->. lia.
    + eapply Forall_impl; [exact H2|]. cbn. intros e' ?. lia.
Qed.

(** X3.  The events of a conforming document come in the fixed order of
    their kinds: authorship, license, policy, primary classification,
    secondary classifications, metadata, authors; none of them is a
    [CreateSubmission]. *)
Theorem events_in_order_of_kind (fields : list string) (u cl : Agent)
    (p : option Agent) (data : dict) :
  conforms data = true ->
  exists events,
    fst (_update_submission fields u cl p data) = Return events
    /\ StronglySorted (fun e1 e2 => event_rank e1 <= event_rank e2) events
    /\ Forall (fun e => 1 <= event_rank e) events.
Proof.
  intros Hc. rewrite (update_submission_conforming _ _ _ _ _ Hc). cbn [fst].
  eexists. split; [done|]. unfold compile_rules.
  apply (ranked_cons 1).
  { destruct (data !! "submitter_is_author"); repeat constructor. }
  apply (ranked_cons 2).
  { destruct (data !! "license"); repeat constructor. }
  apply (ranked_cons 3).
  { destruct (data !! "submitter_accepts_policy") as [policy|];
      [destruct (py_bool policy)|]; repeat constructor. }
  apply (ranked_cons 4).
  { destruct (data !! "primary_classification"); repeat constructor. }
  apply (ranked_cons 5).
  { apply Forall_fmap, Forall_forall. done. }
  destruct (data !! "metadata") as [md|]; [|by split; constructor].
  destruct (dict_of md !! "authors"); split; repeat constructor; cbn; lia.
Qed.

Lemma events_in_order_of_kind_witness :
  exists events,
    fst (_update_submission ex_fields ex_user ex_client None ex_classified) = Return events
    /\ StronglySorted (fun e1 e2 => event_rank e1 <= event_rank e2) events
    /\ event_rank <$> events = [1; 2; 4; 5; 5].
Proof.
  destruct (events_in_order_of_kind ex_fields ex_user ex_client None ex_classified eq_refl)
    as (events & Hrun & Hsorted & _).
  exists events. split; [done|]. split; [done|].
  assert (Hfst : fst (_update_submission ex_fields ex_user ex_client None ex_classified)
                 = Return (compile_rules ex_fields (mkAgents ex_user ex_client None)
                             ex_classified))
    by (vm_compute; reflexivity).
  rewrite Hrun in Hfst. injection Hfst as ->. vm_compute. reflexivity.
Defined.



(** X5.  The name of a license is optional: a license with [uri] and without
    [name] yields [SelectLicense] with [None] as name. *)
Theorem license_name_optional (fields : list string) (u cl : Agent) (p : option Agent)
    (data license : dict) (uri : value) :
  conforms data = true ->
  data !! "license" = Some (VDict license) ->
  license !! "uri" = Some uri ->
  license !! "name" = None ->
  exists events,
    fst (_update_submission fields u cl p data) = Return events
    /\ SelectLicense (mkAgents u cl p) VNone uri ∈ events.
Proof.
  intros Hc Hlic Huri Hname.
  rewrite (update_submission_conforming _ _ _ _ _ Hc). cbn [fst].
  eexists. split; [done|]. unfold compile_rules. rewrite Hlic.
  unfold item. cbn [dict_of]. rewrite Huri, Hname. cbn [default].
  apply elem_of_app. right. apply elem_of_app. left. apply list_elem_of_singleton. done.
Qed.

Lemma license_name_optional_witness :
  exists events,
    fst (_update_submission ex_fields ex_user ex_client None ex_classified) = Return events
    /\ SelectLicense (mkAgents ex_user ex_client None) VNone
         (VStr "http://creativecommons.org/licenses/by/4.0/") ∈ events.
Proof.
  exact (license_name_optional ex_fields ex_user ex_client None ex_classified
           {[ "uri" := VStr "http://creativecommons.org/licenses/by/4.0/" ]}
           (VStr "http://creativecommons.org/licenses/by/4.0/")
           eq_refl eq_refl eq_refl eq_refl).
Defined.

(** X6.  When the license, if any, is an object with [uri], a primary
    classification that is an object without [category] makes the translation
    raise [KeyError] for ['category']; the document is left as it is. *)
Theorem primary_without_category_raises_KeyError (fields : list string) (u cl : Agent)
    (p : option Agent) (data primary : dict) :
  match data !! "license" with
  | Some license => has_key "uri" license
  | None => true
  end = true ->
  data !! "primary_classification" = Some (VDict primary) ->
  primary !! "category" = None ->
  _update_submission fields u cl p data = (Raise (KeyError "category"), data).
Proof.
  intros Hlic Hprim Hcat. unfold _update_submission. set (a := mkAgents u cl p).
  rewrite bind_run. cbn [read]. cbv zeta.
  rewrite stage_eq with (es := fun v => [AssertAuthorship a v]) by done.
  rewrite stage_eq
    with (es := fun license => [SelectLicense a (item license "name") (item license "uri")]).
  2: { intros lic Hl. rewrite Hl in Hlic.
       destruct (has_key_inv _ _ Hlic) as (m & x & -> & Hx & Hitem).
       rewrite !bind_lift. cbn [py_get py_getitem]. rewrite Hx, <- Hitem. done. }
  rewrite stage_eq with (es := fun v => if py_bool v then [AcceptPolicy a] else []).
  2: { intros v _. destruct (py_bool v); [done|]. cbn. by rewrite app_nil_r. }
  rewrite bind_run, Hprim. rewrite bind_lift. cbn [py_getitem]. by rewrite Hcat.
Qed.

Lemma primary_without_category_raises_KeyError_witness :
  _update_submission ex_fields ex_user ex_client None ex_no_category
  = (Raise (KeyError "category"), ex_no_category).
Proof.
  apply (primary_without_category_raises_KeyError ex_fields ex_user ex_client None
           ex_no_category ∅); reflexivity.
Defined.

(** ** The exceptions of the translation *)

Lemma raises_only_ret {A : Type} (a : A) (P : Exception -> Prop) :
  raises_only (mret a) P.
Proof. intros d e. discriminate. Qed.

Lemma raises_only_lift {A : Type} (o : outcome A) (P : Exception -> Prop) :
  (forall e, o = Raise e -> P e) -> raises_only (lift o) P.
Proof. intros Ho d e. cbn. auto. Qed.

Lemma raises_only_bind {A B : Type} (m : M A) (f : A -> M B) (P : Exception -> Prop) :
  raises_only m P ->
  (forall d a, fst (m d) = Return a -> raises_only (f a) P) ->
  raises_only (m ≫= f) P.
Proof.
  intros Hm Hf d e. rewrite bind_run.
  destruct (m d) as [[a|e'] d'] eqn:Hmd.
  - apply (Hf d a). by rewrite Hmd.
  - cbn. intros [= <-]. apply (Hm d). by rewrite Hmd.
Qed.

Lemma raises_only_for_each {A B : Type} (body : B -> A -> M B) (l : list A)
    (P : Exception -> Prop) :
  (forall acc x, raises_only (body acc x) P) ->
  forall acc, raises_only (for_each body acc l) P.
Proof.
  intros Hbody. induction l as [|x l IH]; intros acc; cbn [for_each].
  - apply raises_only_ret.
  - apply raises_only_bind; [apply Hbody|]. intros _ acc' _. apply IH.
Qed.

Lemma py_in_raises (key : string) (x : value) (e : Exception) :
  py_in key x = Raise e -> e = TypeError.
Proof. destruct x; cbn; congruence. Qed.

Lemma py_iter_raises (x : value) (e : Exception) :
  py_iter x = Raise e -> e = TypeError.
Proof. destruct x; cbn; congruence. Qed.

Lemma py_kwargs_raises (x : value) (e : Exception) :
  py_kwargs x = Raise e -> e = TypeError.
Proof. destruct x; cbn; congruence. Qed.

Lemma py_get_raises (x : value) (key : string) (e : Exception) :
  py_get x key = Raise e -> e = AttributeError "get".
Proof. destruct x; cbn; congruence. Qed.

Lemma py_getitem_raises (x : value) (key : string) (e : Exception) :
  py_getitem x key = Raise e -> e = KeyError key \/ e = TypeError.
Proof.
  destruct x as [| | | | | |d]; cbn; try (intros [= <-]; by right).
  destruct (d !! key); [discriminate|]. intros [= <-]. by left.
Qed.

(** After [key in x] has held, [x[key]] raises nothing but [TypeError]. *)
Lemma py_getitem_present_raises (x : value) (key : string) (e : Exception) :
  py_in key x = Return true -> py_getitem x key = Raise e -> e = TypeError.
Proof.
  destruct x as [| | | | | |d]; cbn; try congruence.
  intros [= [v Hv]%bool_decide_eq_true]. by rewrite Hv.
Qed.

Lemma authors_loop_raises (items : list value) :
  forall (i : nat) (authors : list Author),
    raises_only (authors_loop i items authors) (fun e => e = TypeError).
Proof.
  induction items as [|au items IH]; intros i authors; cbn [authors_loop].
  - apply raises_only_ret.
  - apply raises_only_bind; [apply raises_only_lift, py_in_raises|].
    intros _ has_order _. apply raises_only_bind.
    + destruct (negb has_order); [|apply raises_only_ret].
      destruct au as [| | | | | |d]; cbn [set_order]; try (intros d' e [= <-]; done).
      apply raises_only_bind; [|intros; apply raises_only_ret].
      intros d' e. unfold write_author. by repeat case_match.
    + intros _ au' _. apply raises_only_bind; [apply raises_only_lift, py_kwargs_raises|].
      intros _ kwargs _. apply IH.
Qed.

Lemma update_submission_raises (fields : list string) (u cl : Agent) (p : option Agent) :
  raises_only (_update_submission fields u cl p) translation_error.
Proof.
  unfold _update_submission. set (a := mkAgents u cl p).
  intros d e. rewrite bind_run. cbn [read]. cbv zeta. revert e.
  match goal with |- forall e, fst (?m d) = Raise e -> _ =>
    cut (raises_only m translation_error); [intros H e; apply H|] end.
  apply raises_only_bind.
  { destruct (d !! "submitter_is_author"); apply raises_only_ret. }
  intros _ ev1 _. apply raises_only_bind.
  { destruct (d !! "license") as [lic|]; [|apply raises_only_ret].
    apply raises_only_bind.
    { apply raises_only_lift. intros e' ->%py_get_raises. unfold translation_error. tauto. }
    intros _ name _. apply raises_only_bind; [|intros; apply raises_only_ret].
    apply raises_only_lift. intros e' [->| ->]%py_getitem_raises;
      unfold translation_error; tauto. }
  intros _ ev2 _. apply raises_only_bind.
  { destruct (d !! "submitter_accepts_policy") as [v|]; [|apply raises_only_ret].
    destruct (py_bool v); apply raises_only_ret. }
  intros _ ev3 _. apply raises_only_bind.
  { destruct (d !! "primary_classification") as [pc|]; [|apply raises_only_ret].
    apply raises_only_bind; [|intros; apply raises_only_ret].
    apply raises_only_lift. intros e' [->| ->]%py_getitem_raises;
      unfold translation_error; tauto. }
  intros _ ev4 _. apply raises_only_bind.
  { apply raises_only_lift. intros e' ->%py_iter_raises. unfold translation_error. tauto. }
  intros _ secondary _. apply raises_only_bind.
  { apply raises_only_for_each. intros acc x. unfold secondary_step.
    apply raises_only_bind; [|intros; apply raises_only_ret].
    apply raises_only_lift. intros e' [->| ->]%py_getitem_raises;
      unfold translation_error; tauto. }
  intros _ ev5 _.
  destruct (d !! "metadata") as [md|]; [|apply raises_only_ret].
  apply raises_only_bind.
  { apply raises_only_for_each. intros acc key. unfold metadata_step.
    intros d' e'. rewrite bind_lift.
    destruct (py_in key md) as [[]|e''] eqn:Hin; cbn [negb].
    - rewrite bind_lift. destruct (py_getitem md key) as [v|e''] eqn:Hget; [discriminate|].
      cbn. intros [= <-]. rewrite (py_getitem_present_raises _ _ _ Hin Hget).
      unfold translation_error. tauto.
    - discriminate.
    - cbn. intros [= <-]. rewrite (py_in_raises _ _ _ Hin). unfold translation_error. tauto. }
  intros _ metadata _. intros d' e'. rewrite bind_lift.
  destruct (py_in "authors" md) as [[]|e''] eqn:Hin.
  - rewrite bind_lift. destruct (py_getitem md "authors") as [aus|e''] eqn:Hget.
    + revert e'.
      match goal with |- forall e, fst (?m d') = Raise e -> _ =>
        cut (raises_only m translation_error); [intros H e; apply H|] end.
      apply raises_only_bind.
      { apply raises_only_lift. intros e' ->%py_iter_raises. unfold translation_error. tauto. }
      intros _ items _. apply raises_only_bind; [|intros; apply raises_only_ret].
      intros d'' e' ->%authors_loop_raises. unfold translation_error. tauto.
    + cbn. intros [= <-]. rewrite (py_getitem_present_raises _ _ _ Hin Hget).
      unfold translation_error. tauto.
  - discriminate.
  - cbn. intros [= <-]. rewrite (py_in_raises _ _ _ Hin). unfold translation_error. tauto.
Qed.

(** X7.  The translation raises nothing but [KeyError] for ['uri'] or
    ['category'], [TypeError] and [AttributeError] for [get]: no HTTP
    exception and no exception of the store comes out of it. *)
Theorem update_submission_exceptions (fields : list string) (u cl : Agent)
    (p : option Agent) (data data' : dict) (e : Exception) :
  _update_submission fields u cl p data = (Raise e, data') ->
  (e = KeyError "uri" \/ e = KeyError "category" \/ e = TypeError
   \/ e = AttributeError "get")
  /\ is_http_error e = false /\ is_validation_error e = false.
Proof.
  intros Hrun.
  assert (He : translation_error e).
  { apply (update_submission_raises fields u cl p data). by rewrite Hrun. }
  split; [exact He|]. by destruct He as [->|[->|[->| ->]]].
Qed.

Lemma update_submission_exceptions_witness :
  _update_submission ex_fields ex_user ex_client None ex_no_category
  = (Raise (KeyError "category"), ex_no_category)
  /\ is_http_error (KeyError "category") = false
  /\ is_validation_error (KeyError "category") = false.
Proof.
  assert (Hrun : _update_submission ex_fields ex_user ex_client None ex_no_category
                 = (Raise (KeyError "category"), ex_no_category))
    by (vm_compute; reflexivity).
  split; [exact Hrun|].
  exact (proj2 (update_submission_exceptions ex_fields ex_user ex_client None
                  ex_no_category ex_no_category (KeyError "category") Hrun)).
Defined.

(** ** The controllers when the translation or the resolution of the agents
    fails *)

(** X8.  When the translation raises, [create_submission] and
    [update_submission] do not call the store: they log the exception as
    unhandled and raise [InternalServerError] with the fixed description. *)
Theorem translation_failure_is_unhandled (env : Env) (data : dict)
    (headers : gmap string string) (user_data client_data : dict) (token sid : string)
    (u c : Agent) (p : option Agent) (e : Exception) :
  _get_agents headers user_data client_data = Return (u, c, p) ->
  fst (_update_submission (FIELDS env) u c p data) = Raise e ->
  create_submission env data headers user_data client_data token []
  = (Raise (InternalServerError "Encountered unhandled exception"),
     [Logged (Debug "Received request to create submission");
      Logged (DebugAgents u c p);
      Logged (ErrorUnhandled e)])
  /\ update_submission env data headers user_data client_data token sid []
     = (Raise (InternalServerError "Encountered unhandled exception"),
        [Logged (ErrorUnhandled e)]).
Proof.
  intros Hag Hrun.
  rewrite create_submission_run, update_submission_run, Hag, Hrun. cbv zeta.
  destruct (update_submission_raises _ _ _ _ _ _ Hrun) as [->|[->|[->| ->]]]; done.
Qed.

Lemma translation_failure_is_unhandled_witness :
  create_submission (ex_env (Stored ex_submission [])) ex_license ∅ ex_user_data
    ex_client_data "asdf1234" []
  = (Raise (InternalServerError "Encountered unhandled exception"),
     [Logged (Debug "Received request to create submission");
      Logged (DebugAgents ex_user ex_client None);
      Logged (ErrorUnhandled (KeyError "uri"))]).
Proof.
  destruct (translation_failure_is_unhandled (ex_env (Stored ex_submission [])) ex_license ∅
              ex_user_data ex_client_data "asdf1234" "1" ex_user ex_client None
              (KeyError "uri")) as [Hcreate _];
    [vm_compute; reflexivity | vm_compute; reflexivity | exact Hcreate].
Defined.

(** X9.  When the user data lack [user_id] or [email], or the client data
    lack [client_id], the [KeyError] of [_get_agents] leaves
    [create_submission] and [update_submission] as it is: it is raised before
    the [try], so it is neither logged as unhandled nor turned into an HTTP
    exception, and the store is not called. *)
Theorem agents_failure_escapes (env : Env) (data : dict) (headers : gmap string string)
    (user_data client_data : dict) (token sid : string) (e : Exception) :
  _get_agents headers user_data client_data = Raise e ->
  (e = KeyError "user_id" \/ e = KeyError "email" \/ e = KeyError "client_id")
  /\ create_submission env data headers user_data client_data token []
     = (Raise e, [Logged (Debug "Received request to create submission")])
  /\ update_submission env data headers user_data client_data token sid []
     = (Raise e, []).
Proof.
  intros Hag. rewrite create_submission_run, update_submission_run, Hag.
  split; [|done].
  unfold _get_agents, mbind, outcome_bind, obind in Hag. cbn [py_getitem] in Hag.
  destruct (user_data !! "user_id"); [|injection Hag as <-; tauto].
  destruct (user_data !! "email"); [|injection Hag as <-; tauto].
  destruct (client_data !! "client_id"); [|injection Hag as <-; tauto].
  by destruct (headers !! "X-On-Behalf-Of").
Qed.

Lemma agents_failure_escapes_witness :
  create_submission (ex_env (Stored ex_submission [])) ex_primary ex_delegation
    ex_client_data ex_client_data "asdf1234" []
  = (Raise (KeyError "user_id"), [Logged (Debug "Received request to create submission")]).
Proof.
  destruct (agents_failure_escapes (ex_env (Stored ex_submission [])) ex_primary
              ex_delegation ex_client_data ex_client_data "asdf1234" "1"
              (KeyError "user_id")) as (_ & Hcreate & _); [vm_compute; reflexivity|].
  exact Hcreate.
Defined.

(** ** The controllers when the store answers *)

(** X10.  For a conforming document whose events the store accepts,
    [create_submission] answers with the dictionary of the submission the
    store returned, status 201 and a [Location] built for the route
    [submission.get_submission] from the identifier of that submission; the
    store is called once, with [CreateSubmission] before the events of the
    document and without a submission identifier. *)
Theorem create_submission_created (env : Env) (data : dict)
    (headers : gmap string string) (user_data client_data : dict) (token : string)
    (u c : Agent) (p : option Agent) (submission : Submission) (stored : list Event) :
  _get_agents headers user_data client_data = Return (u, c, p) ->
  conforms data = true ->
  save env (CreateSubmission (mkAgents u c p)
            :: compile_rules (FIELDS env) (mkAgents u c p) data) None
  = Stored submission stored ->
  create_submission env data headers user_data client_data token []
  = (Return (to_dict submission, 201%Z,
             {[ "Location" :=
                  url_for env "submission.get_submission"
                    [("submission_id", UrlValue (submission_id submission))] ]}),
     [Logged (Debug "Received request to create submission");
      Logged (DebugAgents u c p);
      Saved (CreateSubmission (mkAgents u c p)
             :: compile_rules (FIELDS env) (mkAgents u c p) data) None]).
Proof.
  intros Hag Hc Hsave. rewrite create_submission_run, Hag.
  rewrite (update_submission_conforming _ _ _ _ _ Hc). cbn [fst]. cbv zeta.
  by rewrite Hsave.
Qed.

Lemma create_submission_created_witness :
  create_submission (ex_env (Stored ex_submission [])) ex_primary ∅ ex_user_data
    ex_client_data "asdf1234" []
  = (Return (∅, 201%Z, {[ "Location" := "/foo/" ]}),
     [Logged (Debug "Received request to create submission");
      Logged (DebugAgents ex_user ex_client None);
      Saved [CreateSubmission (mkAgents ex_user ex_client None);
             SetPrimaryClassification (mkAgents ex_user ex_client None) (VStr "astro-ph")]
        None]).
Proof.
  apply (create_submission_created (ex_env (Stored ex_submission [])) ex_primary ∅
           ex_user_data ex_client_data "asdf1234" ex_user ex_client None ex_submission []);
    vm_compute; reflexivity.
Defined.

(** X11.  For a conforming document whose events the store accepts,
    [update_submission] answers with the dictionary of the submission the
    store returned, status 200 and a [Location] built for the route
    [submit.get_submission] from the creator and the identifier of that
    submission; the store is called once, with the events of the document
    alone and the identifier of the request. *)
Theorem update_submission_ok (env : Env) (data : dict)
    (headers : gmap string string) (user_data client_data : dict) (token sid : string)
    (u c : Agent) (p : option Agent) (submission : Submission) (stored : list Event) :
  _get_agents headers user_data client_data = Return (u, c, p) ->
  conforms data = true ->
  save env (compile_rules (FIELDS env) (mkAgents u c p) data) (Some sid)
  = Stored submission stored ->
  update_submission env data headers user_data client_data token sid []
  = (Return (to_dict submission, 200%Z,
             {[ "Location" :=
                  url_for env "submit.get_submission"
                    [("creator", UrlAgent u);
                     ("submission_id", UrlValue (submission_id submission))] ]}),
     [Saved (compile_rules (FIELDS env) (mkAgents u c p) data) (Some sid)]).
Proof.
  intros Hag Hc Hsave. rewrite update_submission_run, Hag.
  rewrite (update_submission_conforming _ _ _ _ _ Hc). cbn [fst]. cbv zeta.
  by rewrite Hsave.
Qed.

Lemma update_submission_ok_witness :
  update_submission (ex_env (Stored ex_submission [])) ex_primary ∅ ex_user_data
    ex_client_data "asdf1234" "1" []
  = (Return (∅, 200%Z, {[ "Location" := "/foo/" ]}),
     [Saved [SetPrimaryClassification (mkAgents ex_user ex_client None) (VStr "astro-ph")]
        (Some "1")]).
Proof.
  apply (update_submission_ok (ex_env (Stored ex_submission [])) ex_primary ∅
           ex_user_data ex_client_data "asdf1234" "1" ex_user ex_client None
           ex_submission []);
    vm_compute; reflexivity.
Defined.

(** X12.  When the store raises [NoSuchSubmission], [get_submission] and
    [update_submission] raise [NotFound] and log nothing, the latter naming
    the identifier of the request; [create_submission] has no clause for it
    and treats it as unhandled. *)
Theorem no_such_submission_is_not_found (env : Env) (e : StoreExc) :
  exc_kind e = NoSuchSubmission ->
  (forall sid user client token,
     load env sid = Failed e ->
     get_submission env sid user client token []
     = (Raise (NotFound "Submission not found"), [Loaded sid]))
  /\ (forall data headers user_data client_data token sid u c p new_events,
        _get_agents headers user_data client_data = Return (u, c, p) ->
        fst (_update_submission (FIELDS env) u c p data) = Return new_events ->
        save env new_events (Some sid) = Failed e ->
        update_submission env data headers user_data client_data token sid []
        = (Raise (NotFound ("No submission found with id " +:+ sid)),
           [Saved new_events (Some sid)]))
  /\ (forall data headers user_data client_data token u c p new_events,
        _get_agents headers user_data client_data = Return (u, c, p) ->
        fst (_update_submission (FIELDS env) u c p data) = Return new_events ->
        save env (CreateSubmission (mkAgents u c p) :: new_events) None = Failed e ->
        create_submission env data headers user_data client_data token []
        = (Raise (InternalServerError "Encountered unhandled exception"),
           [Logged (Debug "Received request to create submission");
            Logged (DebugAgents u c p);
            Saved (CreateSubmission (mkAgents u c p) :: new_events) None;
            Logged (ErrorUnhandled (FromStore e))])).
Proof.
  intros Hkind. destruct e as [kind ty text]. cbn in Hkind. subst kind.
  split; [|split].
  - intros * Hload. by rewrite get_submission_run, Hload.
  - intros * Hag Hrun Hsave. rewrite update_submission_run, Hag, Hrun. cbv zeta.
    by rewrite Hsave.
  - intros * Hag Hrun Hsave. rewrite create_submission_run, Hag, Hrun. cbv zeta.
    by rewrite Hsave.
Qed.

Lemma no_such_submission_is_not_found_witness :
  let e := mkStoreExc NoSuchSubmission "<class 'events.NoSuchSubmission'>" "" in
  get_submission (ex_env (Failed e)) "1" None None None []
  = (Raise (NotFound "Submission not found"), [Loaded "1"])
  /\ update_submission (ex_env (Failed e)) ex_primary ∅ ex_user_data ex_client_data
       "asdf1234" "1" []
     = (Raise (NotFound "No submission found with id 1"),
        [Saved [SetPrimaryClassification (mkAgents ex_user ex_client None) (VStr "astro-ph")]
           (Some "1")]).
Proof.
  cbv zeta.
  destruct (no_such_submission_is_not_found
              (ex_env (Failed (mkStoreExc NoSuchSubmission
                                 "<class 'events.NoSuchSubmission'>" "")))
              (mkStoreExc NoSuchSubmission "<class 'events.NoSuchSubmission'>" "") eq_refl)
    as (Hget & Hupdate & _).
  split.
  - apply (Hget "1" None None None). reflexivity.
  - apply (Hupdate ex_primary ∅ ex_user_data ex_client_data "asdf1234" "1"
             ex_user ex_client None
             [SetPrimaryClassification (mkAgents ex_user ex_client None) (VStr "astro-ph")]);
      vm_compute; reflexivity.
Defined.

(** X13.  When the store raises [SaveError], [create_submission] and
    [update_submission] raise [InternalServerError] and log nothing; the
    description of the former ends with the text of the exception, that of the
    latter leaves it out.  [get_submission] has no clause for it and treats it
    as unhandled. *)
Theorem save_error_is_server_fault (env : Env) (e : StoreExc) :
  exc_kind e = SaveError ->
  (forall data headers user_data client_data token u c p new_events,
     _get_agents headers user_data client_data = Return (u, c, p) ->
     fst (_update_submission (FIELDS env) u c p data) = Return new_events ->
     save env (CreateSubmission (mkAgents u c p) :: new_events) None = Failed e ->
     create_submission env data headers user_data client_data token []
     = (Raise (InternalServerError
                 ("Problem interacting with database: " +:+ exc_str e)),
        [Logged (Debug "Received request to create submission");
         Logged (DebugAgents u c p);
         Saved (CreateSubmission (mkAgents u c p) :: new_events) None]))
  /\ (forall data headers user_data client_data token sid u c p new_events,
        _get_agents headers user_data client_data = Return (u, c, p) ->
        fst (_update_submission (FIELDS env) u c p data) = Return new_events ->
        save env new_events (Some sid) = Failed e ->
        update_submission env data headers user_data client_data token sid []
        = (Raise (InternalServerError "Problem interacting with database"),
           [Saved new_events (Some sid)]))
  /\ (forall sid user client token,
        load env sid = Failed e ->
        get_submission env sid user client token []
        = (Raise (InternalServerError "Encountered unhandled exception"),
           [Loaded sid; Logged (ErrorUnhandled (FromStore e))])).
Proof.
  intros Hkind. destruct e as [kind ty text]. cbn in Hkind. subst kind.
  split; [|split].
  - intros * Hag Hrun Hsave. rewrite create_submission_run, Hag, Hrun. cbv zeta.
    by rewrite Hsave.
  - intros * Hag Hrun Hsave. rewrite update_submission_run, Hag, Hrun. cbv zeta.
    by rewrite Hsave.
  - intros * Hload. by rewrite get_submission_run, Hload.
Qed.

Lemma save_error_is_server_fault_witness :
  let e := mkStoreExc SaveError "<class 'events.SaveError'>" "connection refused" in
  create_submission (ex_env (Failed e)) ex_primary ∅ ex_user_data ex_client_data
    "asdf1234" []
  = (Raise (InternalServerError "Problem interacting with database: connection refused"),
     [Logged (Debug "Received request to create submission");
      Logged (DebugAgents ex_user ex_client None);
      Saved [CreateSubmission (mkAgents ex_user ex_client None);
             SetPrimaryClassification (mkAgents ex_user ex_client None) (VStr "astro-ph")]
        None]).
Proof.
  cbv zeta.
  destruct (save_error_is_server_fault
              (ex_env (Failed (mkStoreExc SaveError "<class 'events.SaveError'>"
                                 "connection refused")))
              (mkStoreExc SaveError "<class 'events.SaveError'>" "connection refused")
              eq_refl)
    as (Hcreate & _ & _).
  apply (Hcreate ex_primary ∅ ex_user_data ex_client_data "asdf1234"
           ex_user ex_client None
           [SetPrimaryClassification (mkAgents ex_user ex_client None) (VStr "astro-ph")]);
    vm_compute; reflexivity.
Defined.

(** X14.  A document with none of the six keys is not turned away by
    [update_submission]: the store is called with an empty list of events;
    [create_submission] calls it with [CreateSubmission] alone. *)
Theorem empty_update_is_saved (env : Env) (data : dict)
    (headers : gmap string string) (user_data client_data : dict) (token sid : string)
    (u c : Agent) (p : option Agent) :
  _get_agents headers user_data client_data = Return (u, c, p) ->
  data !! "submitter_is_author" = None ->
  data !! "license" = None ->
  data !! "submitter_accepts_policy" = None ->
  data !! "primary_classification" = None ->
  data !! "secondary_classification" = None ->
  data !! "metadata" = None ->
  (exists trace,
     snd (update_submission env data headers user_data client_data token sid [])
     = Saved [] (Some sid) :: trace)
  /\ saved_events (snd (update_submission env data headers user_data client_data token sid []))
     = [[]]
  /\ saved_events (snd (create_submission env data headers user_data client_data token []))
     = [[CreateSubmission (mkAgents u c p)]].
Proof.
  intros Hag H1 H2 H3 H4 H5 H6.
  assert (Hc : conforms data = true) by (unfold conforms; by rewrite H2, H4, H5, H6).
  assert (Hrules : compile_rules (FIELDS env) (mkAgents u c p) data = []).
  { unfold compile_rules. by rewrite H1, H2, H3, H4, H5, H6. }
  rewrite create_submission_run, update_submission_run, Hag.
  rewrite (update_submission_conforming _ _ _ _ _ Hc), Hrules. cbn [fst]. cbv zeta.
  split; [|split].
  - destruct (save env [] (Some sid)) as [submission stored|[[] ty text]];
      by eexists.
  - destruct (save env [] (Some sid)) as [submission stored|e];
      rewrite ?update_submission_except_saved; done.
  - destruct (save env _ None) as [submission stored|e];
      rewrite ?create_submission_except_saved; done.
Qed.

Lemma empty_update_is_saved_witness :
  saved_events
    (snd (update_submission (ex_env (Stored ex_submission [])) ex_other ∅ ex_user_data
            ex_client_data "asdf1234" "1" []))
  = [[]].
Proof.
  destruct (empty_update_is_saved (ex_env (Stored ex_submission [])) ex_other ∅
              ex_user_data ex_client_data "asdf1234" "1" ex_user ex_client None)
    as (_ & Hsaved & _); [reflexivity..|].
  exact Hsaved.
Defined.

(** ** When the translation writes *)

Lemma imap_default_order_ordered (l : list value) :
  forallb (fun au => negb (is_dict au) || has_key "order" au) l = true ->
  imap default_order l = l.
Proof.
  intros Hall. apply list_eq. intros i. rewrite list_lookup_imap.
  destruct (l !! i) as [au|] eqn:Hi; [|done]. cbn. f_equal.
  pose proof (proj1 (forallb_forall _ _) Hall au) as Hau. cbv beta in Hau.
  specialize (Hau (proj1 (list_elem_of_In _ _) (list_elem_of_lookup_2 _ _ _ Hi))).
  destruct au as [| | | | | |d]; try done. cbn in Hau.
  apply bool_decide_eq_true in Hau as [x Hx]. cbn. by rewrite Hx.
Qed.

Lemma default_orders_upto_ordered (k : nat) (data : dict) :
  all_ordered data = true -> default_orders_upto k data = data.
Proof.
  unfold all_ordered, default_orders_upto. intros Hall.
  destruct (data !! "metadata") as [[| | | | | |md]|] eqn:Hmd; try done.
  destruct (md !! "authors") as [[| | | | |aus|]|] eqn:Haus; try done.
  rewrite imap_default_order_ordered.
  - rewrite take_drop. by apply set_authors_id.
  - apply forallb_forall. intros au Hau.
    apply (proj1 (forallb_forall _ _) Hall au).
    apply list_elem_of_In. apply list_elem_of_In in Hau.
    by eapply subseteq_take.
Qed.

Lemma default_orders_all_ordered (data : dict) :
  all_ordered (default_orders data) = true.
Proof.
  unfold default_orders.
  destruct (data !! "metadata") as [[| | | | | |md]|] eqn:Hmd;
    try (unfold all_ordered; by rewrite Hmd).
  destruct (md !! "authors") as [[| | | | |aus|]|] eqn:Haus;
    try (unfold all_ordered; by rewrite Hmd, Haus).
  unfold all_ordered, set_authors. rewrite !lookup_insert_eq.
  apply forallb_forall. intros au Hau. apply list_elem_of_In in Hau.
  apply list_elem_of_lookup_1 in Hau as [i Hi].
  rewrite list_lookup_imap in Hi.
  destruct (aus !! i) as [au0|]; [|done]. cbn in Hi. injection Hi as <-.
  destruct au0 as [| | | | | |d]; try done. cbn.
  destruct (d !! "order") as [x|] eqn:Hx; cbn.
  - apply bool_decide_eq_true. eauto.
  - apply bool_decide_eq_true. rewrite lookup_insert_eq. eauto.
Qed.

(** X15.  When every author entry of the document has [order], and also when
    the document has no authors at all, the translation leaves the document
    as it is, whether it returns or raises. *)
Theorem ordered_authors_not_written (fields : list string) (u cl : Agent)
    (p : option Agent) (data : dict) :
  all_ordered data = true ->
  snd (_update_submission fields u cl p data) = data.
Proof.
  intros Hall. destruct (update_submission_ends fields u cl p data) as [[k Hk] _].
  rewrite Hk. by apply default_orders_upto_ordered.
Qed.

Lemma ordered_authors_not_written_witness :
  snd (_update_submission ex_fields ex_user ex_client None ex_ordered) = ex_ordered
  /\ snd (_update_submission ex_fields ex_user ex_client None ex_license) = ex_license.
Proof.
  split.
  - apply (ordered_authors_not_written ex_fields ex_user ex_client None ex_ordered).
    reflexivity.
  - apply (ordered_authors_not_written ex_fields ex_user ex_client None ex_license).
    reflexivity.
Defined.

(** X16.  Once the translation has returned, translating the document it left
    writes nothing more into it. *)
Theorem second_translation_writes_nothing (fields fields' : list string)
    (u cl u' cl' : Agent) (p p' : option Agent) (data : dict) (events : list Event) :
  fst (_update_submission fields u cl p data) = Return events ->
  snd (_update_submission fields' u' cl' p' (snd (_update_submission fields u cl p data)))
  = snd (_update_submission fields u cl p data).
Proof.
  intros Hrun. destruct (update_submission_ends fields u cl p data) as [_ Hret].
  destruct (Hret events Hrun) as [_ Hdoc].
  destruct (update_submission_ends fields' u' cl' p'
              (snd (_update_submission fields u cl p data))) as [[k Hk] _].
  rewrite Hk, Hdoc. apply default_orders_upto_ordered, default_orders_all_ordered.
Qed.

Lemma second_translation_writes_nothing_witness :
  snd (_update_submission ex_fields ex_user ex_client None
         (snd (_update_submission ex_fields ex_user ex_client None ex_update)))
  = snd (_update_submission ex_fields ex_user ex_client None ex_update)
  /\ snd (_update_submission ex_fields ex_user ex_client None ex_update) <> ex_update.
Proof.
  split.
  - apply (second_translation_writes_nothing ex_fields ex_fields ex_user ex_client
             ex_user ex_client None None ex_update
             (compile_rules ex_fields (mkAgents ex_user ex_client None) ex_update)).
    vm_compute. reflexivity.
  - intros Heq. apply (f_equal first_author_order) in Heq. vm_compute in Heq. discriminate.
Defined.

(** ** The exceptions that leave the controllers *)







(** ** Delegation, from the header to the store *)

Lemma get_agents_returns (headers : gmap string string) (user_data client_data : dict)
    (user_id email client_id : value) :
  user_data !! "user_id" = Some user_id ->
  user_data !! "email" = Some email ->
  client_data !! "client_id" = Some client_id ->
  _get_agents headers user_data client_data
  = Return
      match headers !! "X-On-Behalf-Of" with
      | Some subject =>
          (User (VStr subject) (VStr "") (Some (VStr "")) [],
           Client client_id,
           Some (User user_id email None []))
      | None => (User user_id email None [], Client client_id, None)
      end.
Proof.
  intros Hid Hemail Hclient. unfold _get_agents.
  unfold mbind, outcome_bind, obind. cbn [py_getitem].
  rewrite Hid, Hemail, Hclient. by destruct (headers !! "X-On-Behalf-Of").
Qed.

(** X18.  On a request with [X-On-Behalf-Of] and a conforming document,
    [create_submission] hands the store one list of events: a
    [CreateSubmission] and the events of the document, each naming the user
    built from the header value as creator and the authenticated user as
    proxy.  The header value is taken as it is, also when it is empty. *)
Theorem delegated_create_is_saved_for_subject (env : Env) (data : dict)
    (headers : gmap string string) (user_data client_data : dict) (token subject : string)
    (user_id email client_id : value) :
  user_data !! "user_id" = Some user_id ->
  user_data !! "email" = Some email ->
  client_data !! "client_id" = Some client_id ->
  headers !! "X-On-Behalf-Of" = Some subject ->
  conforms data = true ->
  let agents :=
    mkAgents (User (VStr subject) (VStr "") (Some (VStr "")) []) (Client client_id)
      (Some (User user_id email None [])) in
  saved_events (snd (create_submission env data headers user_data client_data token []))
  = [CreateSubmission agents :: compile_rules (FIELDS env) agents data]
  /\ carry agents (compile_rules (FIELDS env) agents data).
Proof.
  intros Hid Hemail Hclient Hsubject Hc. cbv zeta.
  rewrite create_submission_run.
  rewrite (get_agents_returns _ _ _ _ _ _ Hid Hemail Hclient), Hsubject.
  pose proof (update_submission_conforming (FIELDS env)
                (User (VStr subject) (VStr "") (Some (VStr "")) []) (Client client_id)
                (Some (User user_id email None [])) data Hc) as Hrun.
  rewrite Hrun. cbn [fst]. cbv zeta. split.
  - destruct (save env _ None) as [submission stored|e];
      rewrite ?create_submission_except_saved; done.
  - destruct (update_submission_ends (FIELDS env)
                (User (VStr subject) (VStr "") (Some (VStr "")) []) (Client client_id)
                (Some (User user_id email None [])) data) as [_ Hret].
    rewrite Hrun in Hret. by destruct (Hret _ eq_refl).
Qed.

Lemma delegated_create_is_saved_for_subject_witness :
  saved_events
    (snd (create_submission (ex_env (Stored ex_submission [])) ex_primary
            {[ "X-On-Behalf-Of" := "" ]} ex_user_data ex_client_data "asdf1234" []))
  = [[CreateSubmission
        (mkAgents (User (VStr "") (VStr "") (Some (VStr "")) []) ex_client (Some ex_user));
      SetPrimaryClassification
        (mkAgents (User (VStr "") (VStr "") (Some (VStr "")) []) ex_client (Some ex_user))
        (VStr "astro-ph")]].
Proof.
  assert (Hsubject : ({[ "X-On-Behalf-Of" := "" ]} : gmap string string)
                     !! "X-On-Behalf-Of" = Some "") by (vm_compute; reflexivity).
  destruct (delegated_create_is_saved_for_subject (ex_env (Stored ex_submission []))
              ex_primary {[ "X-On-Behalf-Of" := "" ]} ex_user_data ex_client_data
              "asdf1234" "" (VInt 1234) (VStr "foo@bar.baz") (VInt 5678)
              eq_refl eq_refl eq_refl Hsubject eq_refl) as [Hsaved _].
  rewrite Hsaved. vm_compute. reflexivity.
Defined.
